(** * Rephrase & Paraphraser: session / variant actions

    A shallow embedding of [src/actions/index.ts] (the seven server actions,
    [requireUser] and [getOwnedSession]) over the two tables declared in the
    database configuration ([RephraseSessions], [RephraseVariants]).

    - The database is explicit state: a record of two row lists.  A handler is
      a computation in a small state-and-exception monad; an exception leaves
      whatever was written before it in place (nothing rolls back).
    - [crypto.randomUUID()] and [new Date()] are read from an [Env] handed to
      each call.
    - [defineAction] runs the input schema first and calls the handler only on
      the parsed value.
    - A free text written to the database is kept up to its first U+0000;
      that is what [.returning()] and every later select hand back. *)

From Stdlib Require Import String List Bool ZArith Lia.
Import ListNotations.
Local Open Scope string_scope.
Local Open Scope list_scope.

(* ================================================================== *)
(** ** Rows of the two tables *)

(** A [Date] is the number of milliseconds since the epoch. *)
Definition Date := Z.

Record RephraseSession := mkSession {
  s_id : string;                    (* column.text({ primaryKey: true }) *)
  s_userId : string;
  s_language : option string;       (* optional: NULL when absent *)
  s_context : option string;
  s_originalText : string;
  s_createdAt : Date;
  s_updatedAt : Date
}.

Record RephraseVariant := mkVariant {
  v_id : string;                    (* column.text({ primaryKey: true }) *)
  v_sessionId : string;             (* references RephraseSessions.id *)
  v_tone : option string;
  v_complexity : option string;
  v_variantLabel : option string;
  v_content : string;
  v_isFavorite : bool;
  v_createdAt : Date
}.

Record Db := mkDb {
  RephraseSessions : list RephraseSession;
  RephraseVariants : list RephraseVariant
}.

Definition empty_db : Db := mkDb [] [].

(** ** Text on its way into the database

    The database driver is not part of the repository.  A text value it
    binds is kept up to its first U+0000 and that is what every later read,
    [.returning()] included, hands back.  Only the free-text columns are
    concerned: the identifier columns hold a uuid, the signed-in user's id,
    or a session id that the resolver has just found stored, and are taken
    as they are. *)
Fixpoint text (s : string) : string :=
  match s with
  | EmptyString => EmptyString
  | String c s' =>
      if Ascii.eqb c Ascii.zero then EmptyString else String c (text s')
  end.

Definition text_opt (o : option string) : option string :=
  match o with Some s => Some (text s) | None => None end.

(** The string holds no U+0000. *)
Fixpoint nul_free (s : string) : bool :=
  match s with
  | EmptyString => true
  | String c s' => negb (Ascii.eqb c Ascii.zero) && nul_free s'
  end.

Definition bound_session (r : RephraseSession) : RephraseSession :=
  mkSession (s_id r) (s_userId r)
    (text_opt (s_language r)) (text_opt (s_context r))
    (text (s_originalText r))
    (s_createdAt r) (s_updatedAt r).

Definition bound_variant (r : RephraseVariant) : RephraseVariant :=
  mkVariant (v_id r) (v_sessionId r)
    (text_opt (v_tone r)) (text_opt (v_complexity r))
    (text_opt (v_variantLabel r))
    (text (v_content r))
    (v_isFavorite r) (v_createdAt r).

(* ================================================================== *)
(** ** Errors *)

Inductive ActionErrorCode := UNAUTHORIZED | NOT_FOUND | BAD_REQUEST.

(** The issues a schema of this file can report: a string shorter than its
    [min], and the message of a failed [refine]. *)
Inductive ZodIssue :=
| too_small (path : string)
| custom (message : string).

Inductive Failure :=
| ActionError (code : ActionErrorCode) (message : string)
| ActionInputError (issues : list ZodIssue)
| StorageFailure.

(** [ActionInputError] is the [ActionError] subclass with code BAD_REQUEST. *)
Definition failure_code (f : Failure) : option ActionErrorCode :=
  match f with
  | ActionError c _ => Some c
  | ActionInputError _ => Some BAD_REQUEST
  | StorageFailure => None
  end.

(* ================================================================== *)
(** ** The handler monad: database state, exceptions *)

Definition Action (A : Type) : Type := Db -> (Failure + A) * Db.

Definition ret {A} (a : A) : Action A := fun db => (inr a, db).

Definition throw {A} (f : Failure) : Action A := fun db => (inl f, db).

Definition bind {A B} (m : Action A) (k : A -> Action B) : Action B :=
  fun db =>
    match m db with
    | (inl f, db') => (inl f, db')
    | (inr a, db') => k a db'
    end.

Definition lift {A} (r : Failure + A) : Action A := fun db => (r, db).

Declare Scope action_scope.
Delimit Scope action_scope with action.
Notation "x <- m ;; k" := (bind m (fun x => k))
  (at level 61, m at next level, right associativity) : action_scope.
Notation "m ;; k" := (bind m (fun _ => k))
  (at level 61, right associativity) : action_scope.
Local Open Scope action_scope.

(* ================================================================== *)
(** ** The query builder, as far as the actions use it *)

Module Query.

Section Table.
Variable Row : Type.
Variable key : Row -> string.
Variable bind : Row -> Row.

(** [db.select().from(T).where(p)] *)
Definition select (p : Row -> bool) (t : list Row) : list Row :=
  filter p t.

(** [db.update(T).set(f).where(p).returning()]: the new table and the
    rows as updated.  [f] is the [.set] object with its values as bound;
    the columns it does not name keep what is stored. *)
Definition update (p : Row -> bool) (f : Row -> Row) (t : list Row)
  : list Row * list Row :=
  (map (fun r => if p r then f r else r) t, map f (filter p t)).

(** [db.delete(T).where(p)]: the new table and [rowsAffected]. *)
Definition delete (p : Row -> bool) (t : list Row) : list Row * nat :=
  (filter (fun r => negb (p r)) t, length (filter p t)).

(** [db.insert(T).values(r).returning()]: refused when the primary key is
    already present.  What is stored, and handed back, is the row as the
    driver binds it. *)
Definition insert (r : Row) (t : list Row) : option (list Row * list Row) :=
  if existsb (fun r' => key r' =? key (bind r)) t then None
  else Some (t ++ [bind r], [bind r]).
End Table.

Arguments select {Row} p t.
Arguments update {Row} p f t.
Arguments delete {Row} p t.
Arguments insert {Row} key bind r t.

End Query.

(** [and(...)] over a list of conditions, [eq] on text and boolean columns. *)
Definition and_ {Row} (filters : list (Row -> bool)) : Row -> bool :=
  fun r => forallb (fun p => p r) filters.

Definition eq_text {Row} (col : Row -> string) (v : string) : Row -> bool :=
  fun r => col r =? v.

Definition eq_bool {Row} (col : Row -> bool) (v : bool) : Row -> bool :=
  fun r => Bool.eqb (col r) v.

(** The statements lifted to the monad, one per table and kind. *)
Definition select_sessions (p : RephraseSession -> bool)
  : Action (list RephraseSession) :=
  fun db => (inr (Query.select p (RephraseSessions db)), db).

Definition select_variants (p : RephraseVariant -> bool)
  : Action (list RephraseVariant) :=
  fun db => (inr (Query.select p (RephraseVariants db)), db).

Definition insert_session (r : RephraseSession)
  : Action (list RephraseSession) :=
  fun db =>
    match Query.insert s_id bound_session r (RephraseSessions db) with
    | None => (inl StorageFailure, db)
    | Some (t, rows) => (inr rows, mkDb t (RephraseVariants db))
    end.

(** [sessionId] references [RephraseSessions.id]; the one insert of the
    actions comes after [getOwnedSession] has found that session. *)
Definition insert_variant (r : RephraseVariant)
  : Action (list RephraseVariant) :=
  fun db =>
    match Query.insert v_id bound_variant r (RephraseVariants db) with
    | None => (inl StorageFailure, db)
    | Some (t, rows) => (inr rows, mkDb (RephraseSessions db) t)
    end.

Definition update_sessions (p : RephraseSession -> bool)
    (f : RephraseSession -> RephraseSession) : Action (list RephraseSession) :=
  fun db =>
    let '(t, rows) := Query.update p f (RephraseSessions db) in
    (inr rows, mkDb t (RephraseVariants db)).

Definition update_variants (p : RephraseVariant -> bool)
    (f : RephraseVariant -> RephraseVariant) : Action (list RephraseVariant) :=
  fun db =>
    let '(t, rows) := Query.update p f (RephraseVariants db) in
    (inr rows, mkDb (RephraseSessions db) t).

Definition delete_variants (p : RephraseVariant -> bool) : Action nat :=
  fun db =>
    let '(t, n) := Query.delete p (RephraseVariants db) in
    (inr n, mkDb (RephraseSessions db) t).

(* ================================================================== *)
(** ** Request context and ambient values *)

Record User := mkUser { user_id : string }.

Record Locals := mkLocals { user : option User }.

(** [context.locals as App.Locals | undefined] *)
Record ActionAPIContext := mkContext { locals : option Locals }.

(** What [crypto.randomUUID()] and [new Date()] give during one call. *)
Record Env := mkEnv { randomUUID : string; now : Date }.

(** The context of a request made by the signed-in user [u]. *)
Definition signed_in (u : string) : ActionAPIContext :=
  mkContext (Some (mkLocals (Some (mkUser u)))).

Definition context_user (context : ActionAPIContext) : option User :=
  match locals context with
  | Some l => user l                    (* locals?.user *)
  | None => None
  end.

(* ================================================================== *)
(** ** Reply envelopes *)

(** [{ success, data }]; [data = None] is an envelope without the key. *)
Record Envelope (D : Type) := mkEnvelope { success : bool; data : option D }.

Record SessionData := mkSessionData { session : option RephraseSession }.
Record VariantData := mkVariantData { variant : option RephraseVariant }.
Record ItemsData (A : Type) := mkItems { items : list A; total : nat }.
Inductive NoData : Type := .

Arguments mkEnvelope {D} success data.
Arguments success {D} _.
Arguments data {D} _.
Arguments mkItems {A} items total.
Arguments items {A} _.
Arguments total {A} _.

(* ================================================================== *)
(** ** Guards *)

Definition unauthorized : Failure :=
  ActionError UNAUTHORIZED "You must be signed in to perform this action.".

Definition session_not_found : Failure :=
  ActionError NOT_FOUND "Rephrase session not found.".

Definition variant_not_found : Failure :=
  ActionError NOT_FOUND "Rephrase variant not found.".

Definition requireUser (context : ActionAPIContext) : Failure + User :=
  match context_user context with
  | None => inl unauthorized
  | Some u => inr u
  end.

Definition getOwnedSession (sessionId userId : string)
  : Action RephraseSession :=
  rows <- select_sessions
            (and_ [eq_text s_id sessionId; eq_text s_userId userId]) ;;
  match rows with
  | [] => throw session_not_found
  | session :: _ => ret session
  end.

(* ================================================================== *)
(** ** Input shapes and their schemas

    A raw input is taken at the static input type of its schema: every
    field has the JSON type the schema asks for and the required fields are
    present.  What the schema still decides at run time is modelled:
    [min(1)], [refine] and the default of [favoritesOnly]. *)

Record CreateSessionInput := mkCreateSession {
  cs_language : option string;
  cs_context : option string;
  cs_originalText : string
}.

Record UpdateSessionInput := mkUpdateSession {
  us_id : string;
  us_language : option string;
  us_context : option string;
  us_originalText : option string
}.

Record CreateVariantInput := mkCreateVariant {
  cv_sessionId : string;
  cv_tone : option string;
  cv_complexity : option string;
  cv_variantLabel : option string;
  cv_content : string;
  cv_isFavorite : option bool
}.

Record UpdateVariantInput := mkUpdateVariant {
  uv_id : string;
  uv_sessionId : string;
  uv_tone : option string;
  uv_complexity : option string;
  uv_variantLabel : option string;
  uv_content : option string;
  uv_isFavorite : option bool
}.

Record DeleteVariantInput := mkDeleteVariant {
  dv_id : string;
  dv_sessionId : string
}.

(** [listVariants] before and after parsing: the schema fills the default of
    [favoritesOnly]. *)
Record ListVariantsRaw := mkListVariantsRaw {
  lr_sessionId : string;
  lr_favoritesOnly : option bool
}.

Record ListVariantsInput := mkListVariants {
  lv_sessionId : string;
  lv_favoritesOnly : bool
}.

(** A schema parses to a value or reports issues. *)
Definition Schema (Raw In : Type) : Type := Raw -> list ZodIssue + In.

Definition parsed {In} (issues : list ZodIssue) (v : In) : list ZodIssue + In :=
  match issues with
  | [] => inr v
  | _ => inl issues
  end.

(** [z.string().min(n)] on the field at [path]. *)
Definition min_ (n : nat) (path s : string) : list ZodIssue :=
  if (n <=? String.length s)%nat then [] else [too_small path].

(** [.refine(check, { message })] *)
Definition refine_ (check : bool) (message : string) : list ZodIssue :=
  if check then [] else [custom message].

Definition defined {A} (o : option A) : bool :=
  match o with Some _ => true | None => false end.

Definition at_least_one : string :=
  "At least one field must be provided to update.".

Definition createSession_input : Schema CreateSessionInput CreateSessionInput :=
  fun input => parsed (min_ 1 "originalText" (cs_originalText input)) input.

Definition updateSession_input : Schema UpdateSessionInput UpdateSessionInput :=
  fun input =>
    parsed
      (min_ 1 "id" (us_id input)
       ++ refine_ (defined (us_language input)
                   || defined (us_context input)
                   || defined (us_originalText input)) at_least_one)
      input.

Definition listSessions_input : Schema unit unit :=
  fun input => inr input.

Definition createVariant_input : Schema CreateVariantInput CreateVariantInput :=
  fun input =>
    parsed
      (min_ 1 "sessionId" (cv_sessionId input)
       ++ min_ 1 "content" (cv_content input))
      input.

Definition updateVariant_input : Schema UpdateVariantInput UpdateVariantInput :=
  fun input =>
    parsed
      (min_ 1 "id" (uv_id input)
       ++ min_ 1 "sessionId" (uv_sessionId input)
       ++ refine_ (defined (uv_tone input)
                   || defined (uv_complexity input)
                   || defined (uv_variantLabel input)
                   || defined (uv_content input)
                   || defined (uv_isFavorite input)) at_least_one)
      input.

Definition deleteVariant_input : Schema DeleteVariantInput DeleteVariantInput :=
  fun input =>
    parsed
      (min_ 1 "id" (dv_id input) ++ min_ 1 "sessionId" (dv_sessionId input))
      input.

Definition listVariants_input : Schema ListVariantsRaw ListVariantsInput :=
  fun input =>
    parsed
      (min_ 1 "sessionId" (lr_sessionId input))
      (mkListVariants
         (lr_sessionId input)
         (match lr_favoritesOnly input with Some b => b | None => false end)).

(** [defineAction({ input, handler })]: the schema runs on the raw input;
    the handler is called with the parsed value, or not at all. *)
Definition defineAction {Raw In Out}
    (input : Schema Raw In)
    (handler : In -> ActionAPIContext -> Env -> Action Out)
  : Raw -> ActionAPIContext -> Env -> Action Out :=
  fun raw context env =>
    match input raw with
    | inl issues => throw (ActionInputError issues)
    | inr value => handler value context env
    end.

(* ================================================================== *)
(** ** The seven actions *)

(** The [.set({ ... })] objects of the two updates: a supplied field
    overwrites the column, with its value as bound; an omitted one leaves
    it. *)
Definition supplied {A} (o : option A) (old : A) : A :=
  match o with Some v => v | None => old end.

Definition supplied_opt {A} (o : option A) (old : option A) : option A :=
  match o with Some v => Some v | None => old end.

Definition updateSession_set (input : UpdateSessionInput) (at_ : Date)
    (r : RephraseSession) : RephraseSession :=
  mkSession
    (s_id r)
    (s_userId r)
    (supplied_opt (text_opt (us_language input)) (s_language r))
    (supplied_opt (text_opt (us_context input)) (s_context r))
    (supplied (text_opt (us_originalText input)) (s_originalText r))
    (s_createdAt r)
    at_.

Definition updateVariant_set (input : UpdateVariantInput)
    (r : RephraseVariant) : RephraseVariant :=
  mkVariant
    (v_id r)
    (v_sessionId r)
    (supplied_opt (text_opt (uv_tone input)) (v_tone r))
    (supplied_opt (text_opt (uv_complexity input)) (v_complexity r))
    (supplied_opt (text_opt (uv_variantLabel input)) (v_variantLabel r))
    (supplied (text_opt (uv_content input)) (v_content r))
    (supplied (uv_isFavorite input) (v_isFavorite r))
    (v_createdAt r).

Definition reply {D} (d : D) : Envelope D := mkEnvelope true (Some d).

Definition createSession_handler (input : CreateSessionInput)
    (context : ActionAPIContext) (env : Env)
  : Action (Envelope SessionData) :=
  user <- lift (requireUser context) ;;
  rows <- insert_session
            (mkSession (randomUUID env) (user_id user)
               (cs_language input) (cs_context input) (cs_originalText input)
               (now env) (now env)) ;;
  ret (reply (mkSessionData (hd_error rows))).

Definition updateSession_handler (input : UpdateSessionInput)
    (context : ActionAPIContext) (env : Env)
  : Action (Envelope SessionData) :=
  user <- lift (requireUser context) ;;
  getOwnedSession (us_id input) (user_id user) ;;
  rows <- update_sessions (eq_text s_id (us_id input))
            (updateSession_set input (now env)) ;;
  ret (reply (mkSessionData (hd_error rows))).

Definition listSessions_handler (_input : unit)
    (context : ActionAPIContext) (env : Env)
  : Action (Envelope (ItemsData RephraseSession)) :=
  user <- lift (requireUser context) ;;
  sessions <- select_sessions (eq_text s_userId (user_id user)) ;;
  ret (reply (mkItems sessions (length sessions))).

Definition createVariant_handler (input : CreateVariantInput)
    (context : ActionAPIContext) (env : Env)
  : Action (Envelope VariantData) :=
  user <- lift (requireUser context) ;;
  getOwnedSession (cv_sessionId input) (user_id user) ;;
  rows <- insert_variant
            (mkVariant (randomUUID env) (cv_sessionId input)
               (cv_tone input) (cv_complexity input) (cv_variantLabel input)
               (cv_content input)
               (match cv_isFavorite input with Some b => b | None => false end)
               (now env)) ;;
  ret (reply (mkVariantData (hd_error rows))).

Definition updateVariant_handler (input : UpdateVariantInput)
    (context : ActionAPIContext) (env : Env)
  : Action (Envelope VariantData) :=
  user <- lift (requireUser context) ;;
  getOwnedSession (uv_sessionId input) (user_id user) ;;
  existing <- select_variants
                (and_ [eq_text v_id (uv_id input);
                       eq_text v_sessionId (uv_sessionId input)]) ;;
  match existing with
  | [] => throw variant_not_found
  | _ :: _ =>
      rows <- update_variants (eq_text v_id (uv_id input))
                (updateVariant_set input) ;;
      ret (reply (mkVariantData (hd_error rows)))
  end.

Definition deleteVariant_handler (input : DeleteVariantInput)
    (context : ActionAPIContext) (env : Env)
  : Action (Envelope NoData) :=
  user <- lift (requireUser context) ;;
  getOwnedSession (dv_sessionId input) (user_id user) ;;
  rowsAffected <- delete_variants
                    (and_ [eq_text v_id (dv_id input);
                           eq_text v_sessionId (dv_sessionId input)]) ;;
  if (rowsAffected =? 0)%nat then throw variant_not_found
  else ret (mkEnvelope true None).

Definition listVariants_filters (input : ListVariantsInput)
  : list (RephraseVariant -> bool) :=
  [eq_text v_sessionId (lv_sessionId input)]
  ++ (if lv_favoritesOnly input then [eq_bool v_isFavorite true] else []).

Definition listVariants_handler (input : ListVariantsInput)
    (context : ActionAPIContext) (env : Env)
  : Action (Envelope (ItemsData RephraseVariant)) :=
  user <- lift (requireUser context) ;;
  getOwnedSession (lv_sessionId input) (user_id user) ;;
  variants <- select_variants (and_ (listVariants_filters input)) ;;
  ret (reply (mkItems variants (length variants))).

Definition createSession := defineAction createSession_input createSession_handler.
Definition updateSession := defineAction updateSession_input updateSession_handler.
Definition listSessions := defineAction listSessions_input listSessions_handler.
Definition createVariant := defineAction createVariant_input createVariant_handler.
Definition updateVariant := defineAction updateVariant_input updateVariant_handler.
Definition deleteVariant := defineAction deleteVariant_input deleteVariant_handler.
Definition listVariants := defineAction listVariants_input listVariants_handler.

(* ================================================================== *)
(** ** Calls and reachable databases *)

Inductive Call :=
| CreateSession (input : CreateSessionInput)
| UpdateSession (input : UpdateSessionInput)
| ListSessions
| CreateVariant (input : CreateVariantInput)
| UpdateVariant (input : UpdateVariantInput)
| DeleteVariant (input : DeleteVariantInput)
| ListVariants (input : ListVariantsRaw).

(** The outcome of a call with the reply body forgotten. *)
Definition outcome {A} (r : (Failure + A) * Db) : option Failure * Db :=
  match r with
  | (inl f, db) => (Some f, db)
  | (inr _, db) => (None, db)
  end.

Definition run (c : Call) (context : ActionAPIContext) (env : Env) (db : Db)
  : option Failure * Db :=
  match c with
  | CreateSession i => outcome (createSession i context env db)
  | UpdateSession i => outcome (updateSession i context env db)
  | ListSessions => outcome (listSessions tt context env db)
  | CreateVariant i => outcome (createVariant i context env db)
  | UpdateVariant i => outcome (updateVariant i context env db)
  | DeleteVariant i => outcome (deleteVariant i context env db)
  | ListVariants i => outcome (listVariants i context env db)
  end.

Definition exec (c : Call) (context : ActionAPIContext) (env : Env) (db : Db) : Db :=
  snd (run c context env db).

Inductive reachable : Db -> Prop :=
| reachable_empty : reachable empty_db
| reachable_step db c context env :
    reachable db -> reachable (exec c context env db).

(** Primary keys: no id occurs twice in a table. *)
Fixpoint distinct (l : list string) : bool :=
  match l with
  | [] => true
  | x :: l' => negb (existsb (String.eqb x) l') && distinct l'
  end.

Definition keys_ok (db : Db) : bool :=
  distinct (map s_id (RephraseSessions db))
  && distinct (map v_id (RephraseVariants db)).

(* ================================================================== *)
(** ** Notions used in the statements *)

Definition keys_distinct (db : Db) : Prop := keys_ok db = true.

(** A property of the database that a computation keeps. *)
Definition preserves (P : Db -> Prop) {A} (m : Action A) : Prop :=
  forall db, P db -> P (snd (m db)).

(** The schema lets the raw input through. *)
Definition accepts {Raw In} (input : Schema Raw In) (raw : Raw) : bool :=
  match input raw with inr _ => true | inl _ => false end.

(** The caller [userId] owns a session stored under [sessionId]. *)
Definition owns (db : Db) (userId sessionId : string) : Prop :=
  exists S, In S (RephraseSessions db)
            /\ s_id S = sessionId /\ s_userId S = userId.

(** The columns of a variant that no statement of the actions assigns after
    the insert. *)
Definition identity (v : RephraseVariant) : string * string * Date :=
  (v_id v, v_sessionId v, v_createdAt v).

(** A sequence of calls, each with its own context and ambient values. *)
Fixpoint exec_all (cs : list (Call * ActionAPIContext * Env)) (db : Db) : Db :=
  match cs with
  | [] => db
  | (c, context, env) :: cs' => exec_all cs' (exec c context env db)
  end.

Definition is_delete (c : Call) : bool :=
  match c with DeleteVariant _ => true | _ => false end.

(** What one call may do to the database: nothing, or one of the five
    statements that write.  [deleting] says whether the delete is allowed. *)
Inductive written (deleting : bool) (db : Db) : Db -> Prop :=
| written_nothing : written deleting db db
| written_session r :
    existsb (fun r' => s_id r' =? s_id r) (RephraseSessions db) = false ->
    written deleting db
      (mkDb (RephraseSessions db ++ [r]) (RephraseVariants db))
| written_session_update (p : RephraseSession -> bool) i (at_ : Date) :
    written deleting db
      (mkDb (map (fun r => if p r then updateSession_set i at_ r else r)
               (RephraseSessions db))
            (RephraseVariants db))
| written_variant r :
    existsb (fun r' => v_id r' =? v_id r) (RephraseVariants db) = false ->
    written deleting db
      (mkDb (RephraseSessions db) (RephraseVariants db ++ [r]))
| written_variant_update (p : RephraseVariant -> bool) i :
    written deleting db
      (mkDb (RephraseSessions db)
            (map (fun r => if p r then updateVariant_set i r else r)
               (RephraseVariants db)))
| written_variant_delete (p : RephraseVariant -> bool) :
    deleting = true ->
    written deleting db
      (mkDb (RephraseSessions db)
            (filter (fun r => negb (p r)) (RephraseVariants db))).

Definition reads {A} (m : Action A) : Prop :=
  forall db, snd (m db) = db.

Definition writes (deleting : bool) {A} (m : Action A) : Prop :=
  forall db, written deleting db (snd (m db)).

(** No stored [originalText] and no stored [content] is empty. *)
Definition texts_ok (db : Db) : Prop :=
  (forall s, In s (RephraseSessions db) -> s_originalText s <> "")
  /\ (forall v, In v (RephraseVariants db) -> v_content v <> "").

(** The call supplies, as [originalText] or as [content], a string that is
    empty once bound: the empty string, or one that starts with U+0000. *)
Definition blanks (c : Call) : bool :=
  match c with
  | CreateSession i => text (cs_originalText i) =? ""
  | UpdateSession i =>
      match us_originalText i with Some t => text t =? "" | None => false end
  | CreateVariant i => text (cv_content i) =? ""
  | UpdateVariant i =>
      match uv_content i with Some t => text t =? "" | None => false end
  | _ => false
  end.

(** The columns of a session that no statement of the actions assigns after
    the insert. *)
Definition session_identity (s : RephraseSession) : string * string * Date :=
  (s_id s, s_userId s, s_createdAt s).

(** Every variant refers to a stored session. *)
Definition references_ok (db : Db) : Prop :=
  forall v, In v (RephraseVariants db) ->
            exists s, In s (RephraseSessions db) /\ s_id s = v_sessionId v.

(** What a call that changed the database did, the caller being [u]. *)
Definition change (c : Call) (u : User) (env : Env) (db db' : Db) : Prop :=
  match c with
  | CreateSession i =>
      existsb (fun r' => s_id r' =? randomUUID env) (RephraseSessions db) = false
      /\ cs_originalText i <> ""
      /\ db' = mkDb (RephraseSessions db
                     ++ [mkSession (randomUUID env) (user_id u)
                           (text_opt (cs_language i)) (text_opt (cs_context i))
                           (text (cs_originalText i)) (now env) (now env)])
                    (RephraseVariants db)
  | UpdateSession i =>
      owns db (user_id u) (us_id i)
      /\ db' = mkDb (map (fun r => if s_id r =? us_id i
                                   then updateSession_set i (now env) r else r)
                       (RephraseSessions db))
                    (RephraseVariants db)
  | CreateVariant i =>
      owns db (user_id u) (cv_sessionId i)
      /\ existsb (fun r' => v_id r' =? randomUUID env) (RephraseVariants db) = false
      /\ cv_content i <> ""
      /\ db' = mkDb (RephraseSessions db)
                    (RephraseVariants db
                     ++ [mkVariant (randomUUID env) (cv_sessionId i)
                           (text_opt (cv_tone i)) (text_opt (cv_complexity i))
                           (text_opt (cv_variantLabel i)) (text (cv_content i))
                           (match cv_isFavorite i with
                            | Some b => b | None => false end)
                           (now env)])
  | UpdateVariant i =>
      owns db (user_id u) (uv_sessionId i)
      /\ (exists w, In w (RephraseVariants db)
                    /\ v_id w = uv_id i /\ v_sessionId w = uv_sessionId i)
      /\ db' = mkDb (RephraseSessions db)
                    (map (fun r => if v_id r =? uv_id i
                                   then updateVariant_set i r else r)
                       (RephraseVariants db))
  | DeleteVariant i =>
      owns db (user_id u) (dv_sessionId i)
      /\ (exists w, In w (RephraseVariants db)
                    /\ v_id w = dv_id i /\ v_sessionId w = dv_sessionId i)
      /\ db' = mkDb (RephraseSessions db)
                    (filter (fun v => negb ((v_id v =? dv_id i)
                                            && (v_sessionId v =? dv_sessionId i)))
                       (RephraseVariants db))
  | ListSessions | ListVariants _ => False
  end.

(** The session a call names and resolves before anything else, if any. *)
Definition resolved (c : Call) : option string :=
  match c with
  | UpdateSession i => Some (us_id i)
  | CreateVariant i => Some (cv_sessionId i)
  | UpdateVariant i => Some (uv_sessionId i)
  | DeleteVariant i => Some (dv_sessionId i)
  | ListVariants i => Some (lr_sessionId i)
  | CreateSession _ | ListSessions => None
  end.

(** The schema of the action called lets the input through. *)
Definition accepted (c : Call) : bool :=
  match c with
  | CreateSession i => accepts createSession_input i
  | UpdateSession i => accepts updateSession_input i
  | ListSessions => accepts listSessions_input tt
  | CreateVariant i => accepts createVariant_input i
  | UpdateVariant i => accepts updateVariant_input i
  | DeleteVariant i => accepts deleteVariant_input i
  | ListVariants i => accepts listVariants_input i
  end.

(** Every action that resolves the session [sessionId] fails there with
    [failure] and leaves the database alone. *)
Definition session_refused (failure : Failure) (context : ActionAPIContext)
    (env : Env) (sessionId : string) (db : Db) : Prop :=
  (forall i, us_id i = sessionId -> accepts updateSession_input i = true ->
     updateSession i context env db = (inl failure, db))
  /\ (forall i, cv_sessionId i = sessionId -> accepts createVariant_input i = true ->
     createVariant i context env db = (inl failure, db))
  /\ (forall i, uv_sessionId i = sessionId -> accepts updateVariant_input i = true ->
     updateVariant i context env db = (inl failure, db))
  /\ (forall i, dv_sessionId i = sessionId -> accepts deleteVariant_input i = true ->
     deleteVariant i context env db = (inl failure, db))
  /\ (forall i, lr_sessionId i = sessionId -> accepts listVariants_input i = true ->
     listVariants i context env db = (inl failure, db)).

(** Sample data for the closed instances below. *)
Module Sample.
Definition env1 : Env := mkEnv "id-1" 1000%Z.
Definition env2 : Env := mkEnv "id-2" 2000%Z.
Definition env3 : Env := mkEnv "id-3" 3000%Z.
Definition alice : ActionAPIContext := signed_in "alice".
Definition bob : ActionAPIContext := signed_in "bob".
Definition nobody : ActionAPIContext := mkContext None.

Definition s1 : RephraseSession :=
  mkSession "s1" "alice" None None "Hello world" 10%Z 10%Z.
Definition s2 : RephraseSession :=
  mkSession "s2" "alice" (Some "en") None "Second text" 20%Z 20%Z.
Definition v1 : RephraseVariant :=
  mkVariant "v1" "s1" None None None "Variant A" false 30%Z.
Definition v2 : RephraseVariant :=
  mkVariant "v2" "s1" (Some "formal") None None "Variant B" true 40%Z.

Definition db1 : Db := mkDb [s1; s2] [v1; v2].

(** The one-character string U+0000. *)
Definition nul : string := String Ascii.zero EmptyString.
End Sample.

(* ================================================================== *)
(** * Facts about the query builder *)

Section TableFacts.
Context {Row : Type} (key : Row -> string).

Lemma filter_none (p : Row -> bool) (t : list Row) :
  (forall r, In r t -> p r = false) -> filter p t = [].
Proof.
  induction t as [|a t IH]; intros H; simpl; [reflexivity|].
  rewrite (H a (or_introl eq_refl)). apply IH. intros r Hr. apply H. now right.
Qed.

Lemma filter_all (p : Row -> bool) (t : list Row) :
  (forall r, In r t -> p r = true) -> filter p t = t.
Proof.
  induction t as [|a t IH]; intros H; simpl; [reflexivity|].
  rewrite (H a (or_introl eq_refl)). f_equal. apply IH. intros r Hr. apply H. now right.
Qed.

Lemma existsb_key_false (k : string) (t : list Row) :
  existsb (String.eqb k) (map key t) = false ->
  forall r, In r t -> (key r =? k) = false.
Proof.
  induction t as [|a t IH]; simpl; intros H r Hr; [contradiction|].
  apply orb_false_iff in H. destruct H as [Ha Ht].
  destruct Hr as [->|Hr]; [|now apply IH].
  now rewrite String.eqb_sym.
Qed.

Lemma existsb_key_insert (k : string) (t : list Row) :
  existsb (fun r' => key r' =? k) t = existsb (String.eqb k) (map key t).
Proof.
  induction t as [|a t IH]; simpl; [reflexivity|].
  now rewrite IH, (String.eqb_sym (key a) k).
Qed.

(** With distinct keys, a lookup by key finds the row and nothing else. *)
Lemma select_by_key (t : list Row) (r : Row) :
  distinct (map key t) = true -> In r t ->
  filter (fun r' => key r' =? key r) t = [r].
Proof.
  induction t as [|a t IH]; simpl; intros Hd Hr; [contradiction|].
  apply andb_true_iff in Hd. destruct Hd as [Ha Hd].
  apply negb_true_iff in Ha.
  destruct Hr as [->|Hr].
  - rewrite String.eqb_refl. f_equal.
    apply filter_none. now apply existsb_key_false.
  - pose proof (existsb_key_false _ _ Ha r Hr) as Hk.
    rewrite String.eqb_sym in Hk. rewrite Hk. now apply IH.
Qed.

Lemma distinct_snoc (t : list string) (k : string) :
  distinct t = true -> existsb (String.eqb k) t = false ->
  distinct (t ++ [k]) = true.
Proof.
  induction t as [|a t IH]; simpl; intros Hd Hk; [reflexivity|].
  apply andb_true_iff in Hd. destruct Hd as [Ha Hd].
  apply orb_false_iff in Hk. destruct Hk as [Hka Hk].
  rewrite IH by assumption. rewrite andb_true_r.
  rewrite existsb_app. simpl. rewrite orb_false_r.
  apply negb_true_iff in Ha. rewrite Ha. simpl.
  now rewrite String.eqb_sym, Hka.
Qed.

Lemma existsb_filter_false (k : string) (p : Row -> bool) (t : list Row) :
  existsb (String.eqb k) (map key t) = false ->
  existsb (String.eqb k) (map key (filter p t)) = false.
Proof.
  induction t as [|a t IH]; simpl; intros H; [reflexivity|].
  apply orb_false_iff in H. destruct H as [Ha Ht].
  destruct (p a); simpl; [rewrite Ha; simpl|]; now apply IH.
Qed.

Lemma distinct_filter (p : Row -> bool) (t : list Row) :
  distinct (map key t) = true -> distinct (map key (filter p t)) = true.
Proof.
  induction t as [|a t IH]; simpl; intros Hd; [reflexivity|].
  apply andb_true_iff in Hd. destruct Hd as [Ha Hd].
  destruct (p a); simpl; [|now apply IH].
  rewrite IH by assumption. rewrite andb_true_r.
  apply negb_true_iff in Ha. apply negb_true_iff.
  now apply existsb_filter_false.
Qed.

Lemma map_key_update (p : Row -> bool) (f : Row -> Row) (t : list Row) :
  (forall r, key (f r) = key r) ->
  map key (map (fun r => if p r then f r else r) t) = map key t.
Proof.
  intros Hf. rewrite map_map. apply map_ext. intros r.
  destruct (p r); [apply Hf|reflexivity].
Qed.
End TableFacts.

(* ================================================================== *)
(** * Guards *)

Lemma requireUser_some context u :
  context_user context = Some u -> requireUser context = inr u.
Proof. unfold requireUser. now intros ->. Qed.

Lemma requireUser_none context :
  context_user context = None -> requireUser context = inl unauthorized.
Proof. unfold requireUser. now intros ->. Qed.

Lemma owner_filter sessionId userId S :
  and_ [eq_text s_id sessionId; eq_text s_userId userId] S
  = (s_id S =? sessionId) && (s_userId S =? userId).
Proof. unfold and_, eq_text. simpl. now rewrite andb_true_r. Qed.

Lemma variant_filter id sessionId v :
  and_ [eq_text v_id id; eq_text v_sessionId sessionId] v
  = (v_id v =? id) && (v_sessionId v =? sessionId).
Proof. unfold and_, eq_text. simpl. now rewrite andb_true_r. Qed.

(** The resolver succeeds on a session the caller owns... *)
Lemma getOwnedSession_owned db S :
  In S (RephraseSessions db) ->
  exists S', getOwnedSession (s_id S) (s_userId S) db = (inr S', db).
Proof.
  intros HS. unfold getOwnedSession, bind, select_sessions, Query.select.
  assert (Hin : In S (filter (and_ [eq_text s_id (s_id S);
                                    eq_text s_userId (s_userId S)])
                        (RephraseSessions db))).
  { apply filter_In. split; [assumption|].
    rewrite owner_filter. now rewrite !String.eqb_refl. }
  destruct (filter _ (RephraseSessions db)) as [|S' rest]; [contradiction|].
  now exists S'.
Qed.

(** ...and fails, reading only the one filtered query, when no row carries
    both the id and the caller as owner. *)
Lemma getOwnedSession_missing db sessionId userId :
  (forall S, In S (RephraseSessions db) ->
             s_id S = sessionId -> s_userId S <> userId) ->
  getOwnedSession sessionId userId db = (inl session_not_found, db).
Proof.
  intros H. unfold getOwnedSession, bind, select_sessions, Query.select.
  rewrite filter_none; [reflexivity|].
  intros S HS. rewrite owner_filter.
  destruct (String.eqb_spec (s_id S) sessionId) as [Hid|]; [|reflexivity].
  simpl. apply String.eqb_neq. now apply H.
Qed.

(** With distinct ids, a row of another owner under that id is such a case. *)
Lemma getOwnedSession_foreign db S userId :
  keys_ok db = true -> In S (RephraseSessions db) -> s_userId S <> userId ->
  getOwnedSession (s_id S) userId db = (inl session_not_found, db).
Proof.
  intros Hk HS Hne. apply getOwnedSession_missing. intros S' HS' Hid.
  unfold keys_ok in Hk. apply andb_true_iff in Hk. destruct Hk as [Hk _].
  pose proof (select_by_key s_id _ S Hk HS) as Hsel.
  assert (Hin : In S' (filter (fun r' => s_id r' =? s_id S) (RephraseSessions db))).
  { apply filter_In. split; [assumption|]. now apply String.eqb_eq. }
  rewrite Hsel in Hin. destruct Hin as [<-|[]]. assumption.
Qed.

(* ================================================================== *)
(** * Primary keys stay distinct *)

Section Preservation.
Variable P : Db -> Prop.

Lemma preserves_ret A (a : A) : preserves P (ret a).
Proof. now intros db H. Qed.

Lemma preserves_throw A f : preserves P (@throw A f).
Proof. now intros db H. Qed.

Lemma preserves_lift A (r : Failure + A) : preserves P (lift r).
Proof. now intros db H. Qed.

Lemma preserves_bind A B (m : Action A) (k : A -> Action B) :
  preserves P m -> (forall a, preserves P (k a)) -> preserves P (bind m k).
Proof.
  intros Hm Hk db H. unfold bind. specialize (Hm db H).
  destruct (m db) as [[f|a] db']; simpl in *; [assumption|].
  now apply Hk.
Qed.

Lemma preserves_select_sessions p : preserves P (select_sessions p).
Proof. now intros db H. Qed.

Lemma preserves_select_variants p : preserves P (select_variants p).
Proof. now intros db H. Qed.

Lemma preserves_getOwnedSession sid uid : preserves P (getOwnedSession sid uid).
Proof.
  apply preserves_bind; [apply preserves_select_sessions|].
  intros [|S rest]; [apply preserves_throw|apply preserves_ret].
Qed.

Lemma preserves_defineAction Raw In Out (input : Schema Raw In)
    (handler : In -> ActionAPIContext -> Env -> Action Out) raw context env :
  (forall i, preserves P (handler i context env)) ->
  preserves P (defineAction input handler raw context env).
Proof.
  intros H. unfold defineAction.
  destruct (input raw); [apply preserves_throw|apply H].
Qed.
End Preservation.

Lemma keys_insert_session r : preserves keys_distinct (insert_session r).
Proof.
  intros db H. unfold insert_session, Query.insert.
  destruct (existsb _ _) eqn:E; simpl; [assumption|].
  unfold keys_distinct, keys_ok in *. simpl.
  apply andb_true_iff in H. destruct H as [Hs Hv]. rewrite Hv, andb_true_r.
  rewrite map_app. simpl. apply distinct_snoc; [assumption|].
  now rewrite <- existsb_key_insert.
Qed.

Lemma keys_insert_variant r : preserves keys_distinct (insert_variant r).
Proof.
  intros db H. unfold insert_variant, Query.insert.
  destruct (existsb _ _) eqn:E; simpl; [assumption|].
  unfold keys_distinct, keys_ok in *. simpl.
  apply andb_true_iff in H. destruct H as [Hs Hv]. rewrite Hs. simpl.
  rewrite map_app. simpl. apply distinct_snoc; [assumption|].
  now rewrite <- existsb_key_insert.
Qed.

Lemma keys_update_sessions p input at_ :
  preserves keys_distinct (update_sessions p (updateSession_set input at_)).
Proof.
  intros db H. unfold update_sessions, Query.update, keys_distinct, keys_ok in *.
  simpl. now rewrite map_key_update.
Qed.

Lemma keys_update_variants p input :
  preserves keys_distinct (update_variants p (updateVariant_set input)).
Proof.
  intros db H. unfold update_variants, Query.update, keys_distinct, keys_ok in *.
  simpl. now rewrite map_key_update.
Qed.

Lemma keys_delete_variants p : preserves keys_distinct (delete_variants p).
Proof.
  intros db H. unfold delete_variants, Query.delete, keys_distinct, keys_ok in *.
  simpl. apply andb_true_iff in H. destruct H as [Hs Hv]. rewrite Hs. simpl.
  now apply distinct_filter.
Qed.

Create HintDb keys.
#[local] Hint Resolve preserves_ret preserves_throw preserves_lift
  preserves_select_sessions preserves_select_variants
  preserves_getOwnedSession keys_insert_session keys_insert_variant
  keys_update_sessions keys_update_variants keys_delete_variants : keys.

Ltac preserve :=
  repeat first
    [ apply preserves_defineAction; intros ?
    | apply preserves_bind; [|intros ?]
    | solve [auto with keys]
    | match goal with
      | |- preserves _ (match ?x with _ => _ end) => destruct x
      | |- preserves _ (if ?x then _ else _) => destruct x
      end ].

Lemma actions_keep_keys context env :
  (forall i, preserves keys_distinct (createSession i context env))
  /\ (forall i, preserves keys_distinct (updateSession i context env))
  /\ (forall i, preserves keys_distinct (listSessions i context env))
  /\ (forall i, preserves keys_distinct (createVariant i context env))
  /\ (forall i, preserves keys_distinct (updateVariant i context env))
  /\ (forall i, preserves keys_distinct (deleteVariant i context env))
  /\ (forall i, preserves keys_distinct (listVariants i context env)).
Proof.
  repeat split; intros i;
    unfold createSession, updateSession, listSessions, createVariant,
      updateVariant, deleteVariant, listVariants;
    unfold createSession_handler, updateSession_handler, listSessions_handler,
      createVariant_handler, updateVariant_handler, deleteVariant_handler,
      listVariants_handler;
    preserve.
Qed.

Lemma snd_outcome A (r : (Failure + A) * Db) : snd (outcome r) = snd r.
Proof. now destruct r as [[f|a] d]. Qed.

Lemma exec_keys_ok c context env db :
  keys_ok db = true -> keys_ok (exec c context env db) = true.
Proof.
  intros H. unfold exec, run.
  destruct (actions_keep_keys context env)
    as (H1 & H2 & H3 & H4 & H5 & H6 & H7).
  destruct c; rewrite snd_outcome;
    [ apply H1 | apply H2 | apply H3 | apply H4 | apply H5 | apply H6
    | apply H7 ]; exact H.
Qed.

Lemma reachable_keys_ok db : reachable db -> keys_ok db = true.
Proof.
  induction 1 as [|db c context env _ IH]; [reflexivity|].
  now apply exec_keys_ok.
Qed.

(* ================================================================== *)
(** * Stepping through an action *)

Lemma accepts_parsed In (issues : list ZodIssue) (v : In) :
  match parsed issues v with inr _ => true | inl _ => false end = true ->
  issues = [] /\ parsed issues v = inr v.
Proof. destruct issues; simpl; [auto|discriminate]. Qed.

Lemma min_ok n path s :
  min_ n path s = [] <-> (n <= String.length s)%nat.
Proof.
  unfold min_. destruct (Nat.leb_spec n (String.length s)); split;
    intros; try reflexivity; try assumption; try discriminate; lia.
Qed.

Lemma min_1_ok path s : min_ 1 path s = [] <-> s <> "".
Proof.
  rewrite min_ok. destruct s; simpl; split; intros H;
    try congruence; try discriminate; lia.
Qed.

Lemma defineAction_accepted Raw In Out (input : Schema Raw In)
    (handler : In -> ActionAPIContext -> Env -> Action Out) raw value context env :
  input raw = inr value ->
  defineAction input handler raw context env = handler value context env.
Proof. unfold defineAction. now intros ->. Qed.

Lemma defineAction_rejected Raw In Out (input : Schema Raw In)
    (handler : In -> ActionAPIContext -> Env -> Action Out) raw issues context env db :
  input raw = inl issues ->
  defineAction input handler raw context env db = (inl (ActionInputError issues), db).
Proof. unfold defineAction. now intros ->. Qed.

Lemma createSession_input_ok i :
  accepts createSession_input i = true -> createSession_input i = inr i.
Proof. unfold accepts, createSession_input. intros H. now apply accepts_parsed in H. Qed.

Lemma updateSession_input_ok i :
  accepts updateSession_input i = true -> updateSession_input i = inr i.
Proof. unfold accepts, updateSession_input. intros H. now apply accepts_parsed in H. Qed.

Lemma createVariant_input_ok i :
  accepts createVariant_input i = true -> createVariant_input i = inr i.
Proof. unfold accepts, createVariant_input. intros H. now apply accepts_parsed in H. Qed.

Lemma updateVariant_input_ok i :
  accepts updateVariant_input i = true -> updateVariant_input i = inr i.
Proof. unfold accepts, updateVariant_input. intros H. now apply accepts_parsed in H. Qed.

Lemma deleteVariant_input_ok i :
  accepts deleteVariant_input i = true -> deleteVariant_input i = inr i.
Proof. unfold accepts, deleteVariant_input. intros H. now apply accepts_parsed in H. Qed.

Lemma listVariants_input_ok i :
  accepts listVariants_input i = true ->
  listVariants_input i
  = inr (mkListVariants (lr_sessionId i)
           (match lr_favoritesOnly i with Some b => b | None => false end)).
Proof. unfold accepts, listVariants_input. intros H. now apply accepts_parsed in H. Qed.

Lemma then_owned (A : Type) db userId sessionId (k : Action A) :
  owns db userId sessionId ->
  (getOwnedSession sessionId userId ;; k) db = k db.
Proof.
  intros (S & HS & <- & <-).
  destruct (getOwnedSession_owned db S HS) as [S' E].
  unfold bind. now rewrite E.
Qed.

Lemma then_refused (A B : Type) (m : Action A) (k : A -> Action B) f db :
  m db = (inl f, db) -> bind m k db = (inl f, db).
Proof. unfold bind. now intros ->. Qed.

Section Caller.
Variables (context : ActionAPIContext) (u : User) (env : Env).
Hypothesis signed : context_user context = Some u.

Lemma as_user A (k : User -> Action A) db :
  (x <- lift (requireUser context) ;; k x) db = k u db.
Proof. now rewrite (requireUser_some _ _ signed). Qed.

(** Past the schema and the sign-in guard, a failing resolver is the
    outcome of the whole action. *)
Lemma resolver_decides f db sessionId :
  getOwnedSession sessionId (user_id u) db = (inl f, db) ->
  session_refused f context env sessionId db.
Proof.
  intros Hg. unfold session_refused.
  repeat split; intros i <- Hacc.
  - unfold updateSession.
    rewrite (defineAction_accepted _ _ _ _ _ _ _ _ _ (updateSession_input_ok _ Hacc)).
    unfold updateSession_handler. rewrite as_user. now apply then_refused.
  - unfold createVariant.
    rewrite (defineAction_accepted _ _ _ _ _ _ _ _ _ (createVariant_input_ok _ Hacc)).
    unfold createVariant_handler. rewrite as_user. now apply then_refused.
  - unfold updateVariant.
    rewrite (defineAction_accepted _ _ _ _ _ _ _ _ _ (updateVariant_input_ok _ Hacc)).
    unfold updateVariant_handler. rewrite as_user. now apply then_refused.
  - unfold deleteVariant.
    rewrite (defineAction_accepted _ _ _ _ _ _ _ _ _ (deleteVariant_input_ok _ Hacc)).
    unfold deleteVariant_handler. rewrite as_user. now apply then_refused.
  - unfold listVariants.
    rewrite (defineAction_accepted _ _ _ _ _ _ _ _ _ (listVariants_input_ok _ Hacc)).
    unfold listVariants_handler. rewrite as_user. now apply then_refused.
Qed.
End Caller.

(* ================================================================== *)
(** * Ownership: a session of another user *)

Lemma getOwnedSession_single_query sessionId userId db :
  getOwnedSession sessionId userId db
  = (match filter (fun r => (s_id r =? sessionId) && (s_userId r =? userId))
             (RephraseSessions db) with
     | [] => inl session_not_found
     | r :: _ => inr r
     end, db).
Proof.
  unfold getOwnedSession, bind, select_sessions, Query.select.
  rewrite (filter_ext _ _ (owner_filter sessionId userId)).
  now destruct (filter _ _).
Qed.

(** C1, with the message as the code has it.  Let the session [S] be stored
    (primary keys distinct, as in every reachable database) under an owner
    other than the signed-in caller [V].  Then each of updateSession,
    createVariant, updateVariant, deleteVariant and listVariants, called by
    [V] on an input its schema accepts and that names [S], fails with
    NOT_FOUND and the message "Rephrase session not found." (full stop
    included) and leaves the database as it was.  The resolver is one select
    filtered by the session id and the caller's id together, and a database
    holding no session under that id gives the very same failure. *)
Theorem C1_foreign_session_is_not_found :
  forall db S context V env,
    keys_ok db = true ->
    In S (RephraseSessions db) ->
    context_user context = Some V ->
    s_userId S <> user_id V ->
    session_refused (ActionError NOT_FOUND "Rephrase session not found.")
      context env (s_id S) db
    /\ (forall db',
          (forall S', In S' (RephraseSessions db') -> s_id S' <> s_id S) ->
          session_refused (ActionError NOT_FOUND "Rephrase session not found.")
            context env (s_id S) db')
    /\ (forall sessionId userId d,
          getOwnedSession sessionId userId d
          = (match filter (fun r => (s_id r =? sessionId) && (s_userId r =? userId))
                     (RephraseSessions d) with
             | [] => inl (ActionError NOT_FOUND "Rephrase session not found.")
             | r :: _ => inr r
             end, d)).
Proof.
  intros db S context V env Hk HS HV Hne. split; [|split].
  - eapply resolver_decides; [exact HV|]. now apply getOwnedSession_foreign.
  - intros db' Habs. eapply resolver_decides; [exact HV|].
    apply getOwnedSession_missing. intros S' HS' Hid. now apply Habs in HS'.
  - apply getOwnedSession_single_query.
Qed.

Lemma C1_foreign_session_witness :
  session_refused (ActionError NOT_FOUND "Rephrase session not found.")
    Sample.bob Sample.env1 "s1" Sample.db1.
Proof.
  refine (proj1 (@C1_foreign_session_is_not_found Sample.db1 Sample.s1
                   Sample.bob (mkUser "bob") Sample.env1 _ _ _ _)).
  - reflexivity.
  - simpl. auto.
  - reflexivity.
  - simpl. discriminate.
Defined.

(** C1 as worded names the message without its full stop: bob's update of
    alice's session fails with the message of the code, which is another
    string. *)
Lemma C1_message_counterexample :
  updateSession (mkUpdateSession "s1" None None (Some "New text"))
    Sample.bob Sample.env1 Sample.db1
  = (inl (ActionError NOT_FOUND "Rephrase session not found."), Sample.db1)
  /\ updateSession (mkUpdateSession "s1" None None (Some "New text"))
       Sample.bob Sample.env1 Sample.db1
     <> (inl (ActionError NOT_FOUND "Rephrase session not found"), Sample.db1).
Proof. split; [reflexivity|]. vm_compute. discriminate. Qed.

(* ================================================================== *)
(** * Calls without a signed-in user *)

Section Anonymous.
Variables (context : ActionAPIContext) (env : Env).
Hypothesis anonymous : context_user context = None.

Lemma as_nobody A (k : User -> Action A) db :
  (x <- lift (requireUser context) ;; k x) db = (inl unauthorized, db).
Proof. now rewrite (requireUser_none _ anonymous). Qed.

Lemma handlers_unauthorized db :
  (forall i, createSession_handler i context env db = (inl unauthorized, db))
  /\ (forall i, updateSession_handler i context env db = (inl unauthorized, db))
  /\ (forall i, listSessions_handler i context env db = (inl unauthorized, db))
  /\ (forall i, createVariant_handler i context env db = (inl unauthorized, db))
  /\ (forall i, updateVariant_handler i context env db = (inl unauthorized, db))
  /\ (forall i, deleteVariant_handler i context env db = (inl unauthorized, db))
  /\ (forall i, listVariants_handler i context env db = (inl unauthorized, db)).
Proof. repeat split; intros i; apply as_nobody. Qed.

(** Whatever the input, the call fails and writes nothing. *)
Lemma anonymous_call_fails c db :
  exists f, run c context env db = (Some f, db)
            /\ (f = unauthorized \/ exists issues, f = ActionInputError issues).
Proof.
  destruct (handlers_unauthorized db) as (H1 & H2 & H3 & H4 & H5 & H6 & H7).
  destruct c; simpl;
    unfold createSession, updateSession, listSessions, createVariant,
      updateVariant, deleteVariant, listVariants, defineAction;
    match goal with |- context [match ?s ?i with _ => _ end] =>
      destruct (s i) as [issues|value] end;
    try (exists (ActionInputError issues); split; [reflexivity|right; now exists issues]);
    exists unauthorized;
    rewrite ?H1, ?H2, ?H3, ?H4, ?H5, ?H6, ?H7; auto.
Qed.
End Anonymous.

Lemma parsed_inl In (issues l : list ZodIssue) (v : In) :
  parsed issues v = inl l -> l = issues /\ issues <> [].
Proof.
  destruct issues; simpl; [discriminate|].
  intros E. injection E as <-. split; [reflexivity|discriminate].
Qed.

Lemma defineAction_anonymous Raw In Out (input : Schema Raw In)
    (handler : In -> ActionAPIContext -> Env -> Action Out) raw context env db :
  (forall v, handler v context env db = (inl unauthorized, db)) ->
  exists f,
    outcome (defineAction input handler raw context env db) = (Some f, db)
    /\ (accepts input raw = true -> f = unauthorized)
    /\ (accepts input raw = false ->
        exists issues, input raw = inl issues /\ f = ActionInputError issues).
Proof.
  intros H. unfold defineAction, accepts.
  destruct (input raw) as [issues|value].
  - exists (ActionInputError issues). split; [reflexivity|].
    split; [intros Ht; discriminate Ht|]. intros _. now exists issues.
  - exists unauthorized. rewrite H. split; [reflexivity|].
    split; [reflexivity|]. intros Hf. discriminate Hf.
Qed.

(** Without a signed-in user the schema alone decides which failure it is. *)
Lemma anonymous_call_outcome context env c db :
  context_user context = None ->
  exists f,
    run c context env db = (Some f, db)
    /\ (accepted c = true -> f = unauthorized)
    /\ (accepted c = false ->
        exists issues, f = ActionInputError issues /\ issues <> []).
Proof.
  intros Hanon.
  destruct (handlers_unauthorized context env Hanon db)
    as (H1 & H2 & H3 & H4 & H5 & H6 & H7).
  destruct c as [i|i| |i|i|i|i]; simpl.
  - destruct (defineAction_anonymous _ _ _ createSession_input _ i _ _ _ H1)
      as (f & E & Ht & Hf).
    exists f. split; [exact E|]. split; [exact Ht|]. intros Ha.
    destruct (Hf Ha) as (issues & Ei & ->). exists issues.
    split; [reflexivity|].
    unfold createSession_input, updateSession_input, createVariant_input,
      updateVariant_input, deleteVariant_input, listVariants_input in Ei.
    apply parsed_inl in Ei. destruct Ei as [-> Hne]. exact Hne.
  - destruct (defineAction_anonymous _ _ _ updateSession_input _ i _ _ _ H2)
      as (f & E & Ht & Hf).
    exists f. split; [exact E|]. split; [exact Ht|]. intros Ha.
    destruct (Hf Ha) as (issues & Ei & ->). exists issues.
    split; [reflexivity|].
    unfold createSession_input, updateSession_input, createVariant_input,
      updateVariant_input, deleteVariant_input, listVariants_input in Ei.
    apply parsed_inl in Ei. destruct Ei as [-> Hne]. exact Hne.
  - destruct (defineAction_anonymous _ _ _ listSessions_input _ tt _ _ _ H3)
      as (f & E & Ht & Hf).
    exists f. split; [exact E|]. split; [exact Ht|]. intros Ha.
    destruct (Hf Ha) as (issues & Ei & _). discriminate Ei.
  - destruct (defineAction_anonymous _ _ _ createVariant_input _ i _ _ _ H4)
      as (f & E & Ht & Hf).
    exists f. split; [exact E|]. split; [exact Ht|]. intros Ha.
    destruct (Hf Ha) as (issues & Ei & ->). exists issues.
    split; [reflexivity|].
    unfold createSession_input, updateSession_input, createVariant_input,
      updateVariant_input, deleteVariant_input, listVariants_input in Ei.
    apply parsed_inl in Ei. destruct Ei as [-> Hne]. exact Hne.
  - destruct (defineAction_anonymous _ _ _ updateVariant_input _ i _ _ _ H5)
      as (f & E & Ht & Hf).
    exists f. split; [exact E|]. split; [exact Ht|]. intros Ha.
    destruct (Hf Ha) as (issues & Ei & ->). exists issues.
    split; [reflexivity|].
    unfold createSession_input, updateSession_input, createVariant_input,
      updateVariant_input, deleteVariant_input, listVariants_input in Ei.
    apply parsed_inl in Ei. destruct Ei as [-> Hne]. exact Hne.
  - destruct (defineAction_anonymous _ _ _ deleteVariant_input _ i _ _ _ H6)
      as (f & E & Ht & Hf).
    exists f. split; [exact E|]. split; [exact Ht|]. intros Ha.
    destruct (Hf Ha) as (issues & Ei & ->). exists issues.
    split; [reflexivity|].
    unfold createSession_input, updateSession_input, createVariant_input,
      updateVariant_input, deleteVariant_input, listVariants_input in Ei.
    apply parsed_inl in Ei. destruct Ei as [-> Hne]. exact Hne.
  - destruct (defineAction_anonymous _ _ _ listVariants_input _ i _ _ _ H7)
      as (f & E & Ht & Hf).
    exists f. split; [exact E|]. split; [exact Ht|]. intros Ha.
    destruct (Hf Ha) as (issues & Ei & ->). exists issues.
    split; [reflexivity|].
    unfold createSession_input, updateSession_input, createVariant_input,
      updateVariant_input, deleteVariant_input, listVariants_input in Ei.
    apply parsed_inl in Ei. destruct Ei as [-> Hne]. exact Hne.
Qed.

(** C2, with the order of the two checks as the code has it.  A call made
    without a signed-in user on an input the action's schema accepts fails
    with UNAUTHORIZED, the database untouched and its content never
    consulted: this for each of the seven actions.  An input the schema turns
    down never reaches the guard: the call then fails with the schema's
    input error, which lists at least one issue, and not with UNAUTHORIZED.
    Either way the call fails and the database is unchanged. *)
Theorem C2_unauthenticated_call_is_refused :
  forall context env db,
    context_user context = None ->
    let denied :=
      ActionError UNAUTHORIZED "You must be signed in to perform this action." in
    (forall i, accepts createSession_input i = true ->
       createSession i context env db = (inl denied, db))
    /\ (forall i, accepts updateSession_input i = true ->
       updateSession i context env db = (inl denied, db))
    /\ (forall i, listSessions i context env db = (inl denied, db))
    /\ (forall i, accepts createVariant_input i = true ->
       createVariant i context env db = (inl denied, db))
    /\ (forall i, accepts updateVariant_input i = true ->
       updateVariant i context env db = (inl denied, db))
    /\ (forall i, accepts deleteVariant_input i = true ->
       deleteVariant i context env db = (inl denied, db))
    /\ (forall i, accepts listVariants_input i = true ->
       listVariants i context env db = (inl denied, db))
    /\ (forall c, exists f,
          run c context env db = (Some f, db)
          /\ (accepted c = true -> f = denied)
          /\ (accepted c = false ->
              exists issues, f = ActionInputError issues /\ issues <> [])).
Proof.
  intros context env db Hanon denied.
  destruct (handlers_unauthorized context env Hanon db)
    as (H1 & H2 & H3 & H4 & H5 & H6 & H7).
  repeat split.
  - intros i Hacc. unfold createSession.
    now rewrite (defineAction_accepted _ _ _ _ _ _ _ _ _ (createSession_input_ok _ Hacc)).
  - intros i Hacc. unfold updateSession.
    now rewrite (defineAction_accepted _ _ _ _ _ _ _ _ _ (updateSession_input_ok _ Hacc)).
  - intros i. apply H3.
  - intros i Hacc. unfold createVariant.
    now rewrite (defineAction_accepted _ _ _ _ _ _ _ _ _ (createVariant_input_ok _ Hacc)).
  - intros i Hacc. unfold updateVariant.
    now rewrite (defineAction_accepted _ _ _ _ _ _ _ _ _ (updateVariant_input_ok _ Hacc)).
  - intros i Hacc. unfold deleteVariant.
    now rewrite (defineAction_accepted _ _ _ _ _ _ _ _ _ (deleteVariant_input_ok _ Hacc)).
  - intros i Hacc. unfold listVariants.
    now rewrite (defineAction_accepted _ _ _ _ _ _ _ _ _ (listVariants_input_ok _ Hacc)).
  - intros c. now apply anonymous_call_outcome.
Qed.

Lemma C2_unauthenticated_witness :
  createSession (mkCreateSession None None "Hello world")
    Sample.nobody Sample.env1 Sample.db1
  = (inl (ActionError UNAUTHORIZED
            "You must be signed in to perform this action."), Sample.db1).
Proof.
  refine (proj1 (@C2_unauthenticated_call_is_refused Sample.nobody Sample.env1
                   Sample.db1 _) (mkCreateSession None None "Hello world") _);
    reflexivity.
Defined.

(** C2 as worded fails on an unauthenticated call whose input the schema
    refuses: the update below supplies no field, and the failure is the
    input error (code BAD_REQUEST), not UNAUTHORIZED. *)
Lemma C2_validation_first_counterexample :
  context_user Sample.nobody = None
  /\ updateSession (mkUpdateSession "s1" None None None)
       Sample.nobody Sample.env1 Sample.db1
     = (inl (ActionInputError
               [custom "At least one field must be provided to update."]),
        Sample.db1)
  /\ failure_code
       (ActionInputError
          [custom "At least one field must be provided to update."])
     <> Some UNAUTHORIZED.
Proof. repeat split. discriminate. Qed.

(* ================================================================== *)
(** * Non-empty texts *)

Lemma reachable_exec_all cs db : reachable db -> reachable (exec_all cs db).
Proof.
  revert db. induction cs as [|[[c context] env] cs IH]; intros db H; simpl.
  - assumption.
  - apply IH. now constructor.
Qed.

Lemma preserves_accepted (P : Db -> Prop) Raw In Out (input : Schema Raw In)
    (handler : In -> ActionAPIContext -> Env -> Action Out) raw context env :
  (forall value, input raw = inr value -> preserves P (handler value context env)) ->
  preserves P (defineAction input handler raw context env).
Proof.
  intros H. unfold defineAction.
  destruct (input raw) as [issues|value]; [apply preserves_throw|now apply H].
Qed.

Lemma parsed_inv In (issues : list ZodIssue) (v w : In) :
  parsed issues v = inr w -> issues = [] /\ w = v.
Proof. destruct issues; simpl; [|discriminate]. intros E. split; congruence. Qed.

Lemma texts_insert_session r :
  (text (s_originalText r) =? "") = false ->
  preserves texts_ok (insert_session r).
Proof.
  intros Hr db [Hs Hv]. unfold insert_session, Query.insert.
  destruct (existsb _ _); simpl; split; auto.
  intros s Hin. apply in_app_or in Hin. destruct Hin as [Hin|[<-|[]]]; auto.
  simpl. now apply String.eqb_neq.
Qed.

Lemma texts_insert_variant r :
  (text (v_content r) =? "") = false ->
  preserves texts_ok (insert_variant r).
Proof.
  intros Hr db [Hs Hv]. unfold insert_variant, Query.insert.
  destruct (existsb _ _); simpl; split; auto.
  intros v Hin. apply in_app_or in Hin. destruct Hin as [Hin|[<-|[]]]; auto.
  simpl. now apply String.eqb_neq.
Qed.

Lemma texts_update_sessions p i at_ :
  match us_originalText i with Some t => text t =? "" | None => false end = false ->
  preserves texts_ok (update_sessions p (updateSession_set i at_)).
Proof.
  intros Hi db [Hs Hv]. unfold update_sessions, Query.update. simpl.
  split; [|assumption].
  intros s Hin. apply in_map_iff in Hin. destruct Hin as (r & <- & Hr).
  destruct (p r); [|now apply Hs]. simpl.
  destruct (us_originalText i) as [t|]; simpl; [|now apply Hs].
  now apply String.eqb_neq.
Qed.

Lemma texts_update_variants p i :
  match uv_content i with Some t => text t =? "" | None => false end = false ->
  preserves texts_ok (update_variants p (updateVariant_set i)).
Proof.
  intros Hi db [Hs Hv]. unfold update_variants, Query.update. simpl.
  split; [assumption|].
  intros v Hin. apply in_map_iff in Hin. destruct Hin as (r & <- & Hr).
  destruct (p r); [|now apply Hv]. simpl.
  destruct (uv_content i) as [t|]; simpl; [|now apply Hv].
  now apply String.eqb_neq.
Qed.

Lemma texts_delete_variants p : preserves texts_ok (delete_variants p).
Proof.
  intros db [Hs Hv]. unfold delete_variants, Query.delete. simpl.
  split; [assumption|].
  intros v Hin. apply filter_In in Hin. now apply Hv.
Qed.

#[local] Hint Resolve texts_insert_session texts_insert_variant
  texts_update_sessions texts_update_variants texts_delete_variants : keys.

(** Where the texts can become empty: nowhere but in an update that
    supplies the empty string.  Every other call keeps them non-empty. *)
Lemma texts_kept_unless_blanked c context env db :
  blanks c = false -> texts_ok db -> texts_ok (exec c context env db).
Proof.
  intros Hb H. unfold exec, run.
  destruct c; rewrite snd_outcome; revert db H;
    match goal with |- forall db, texts_ok db -> texts_ok (snd (?m db)) =>
      change (preserves texts_ok m) end;
    simpl in Hb.
  - apply preserves_accepted. intros value Hin.
    apply parsed_inv in Hin. destruct Hin as [Hmin ->].
    apply (min_1_ok "originalText") in Hmin.
    unfold createSession_handler. preserve.
  - apply preserves_accepted. intros value Hin.
    apply parsed_inv in Hin. destruct Hin as [_ ->].
    unfold updateSession_handler. preserve.
  - unfold listSessions, listSessions_handler. preserve.
  - apply preserves_accepted. intros value Hin.
    apply parsed_inv in Hin. destruct Hin as [Hmin ->].
    apply app_eq_nil in Hmin. destruct Hmin as [_ Hmin].
    apply (min_1_ok "content") in Hmin.
    unfold createVariant_handler. preserve.
  - apply preserves_accepted. intros value Hin.
    apply parsed_inv in Hin. destruct Hin as [_ ->].
    unfold updateVariant_handler. preserve.
  - unfold deleteVariant, deleteVariant_handler. preserve.
  - unfold listVariants, listVariants_handler. preserve.
Qed.

(** C3 does not hold of the code: the schemas of the two updates take
    [originalText] and [content] as [z.string().optional()], without the
    [min(1)] the two creating schemas have.  Alice creates a session and a
    variant, then updates each with the empty string: the database reached
    stores an empty [originalText] and an empty [content]. *)
Theorem C3_updates_store_empty_text :
  let db :=
    exec_all
      [ (CreateSession (mkCreateSession None None "Hello world"),
         Sample.alice, Sample.env1);
        (UpdateSession (mkUpdateSession "id-1" None None (Some "")),
         Sample.alice, Sample.env2);
        (CreateVariant (mkCreateVariant "id-1" None None None "Variant A" None),
         Sample.alice, Sample.env2);
        (UpdateVariant (mkUpdateVariant "id-2" "id-1" None None None (Some "") None),
         Sample.alice, Sample.env3) ]
      empty_db in
  reachable db
  /\ RephraseSessions db = [mkSession "id-1" "alice" None None "" 1000%Z 2000%Z]
  /\ RephraseVariants db = [mkVariant "id-2" "id-1" None None None "" false 2000%Z].
Proof.
  intros db. split; [|split].
  - apply reachable_exec_all. constructor.
  - reflexivity.
  - reflexivity.
Qed.

(* ================================================================== *)
(** * What each action does for a signed-in owner *)

Lemma db_eta db : mkDb (RephraseSessions db) (RephraseVariants db) = db.
Proof. now destruct db. Qed.

Section Owner.
Variables (context : ActionAPIContext) (u : User) (env : Env).
Hypothesis signed : context_user context = Some u.

Lemma createSession_run i db :
  accepts createSession_input i = true ->
  createSession i context env db
  = match Query.insert s_id bound_session
            (mkSession (randomUUID env) (user_id u) (cs_language i)
               (cs_context i) (cs_originalText i) (now env) (now env))
            (RephraseSessions db) with
    | None => (inl StorageFailure, db)
    | Some (t, rows) =>
        (inr (reply (mkSessionData (hd_error rows))),
         mkDb t (RephraseVariants db))
    end.
Proof.
  intros Hacc. unfold createSession.
  rewrite (defineAction_accepted _ _ _ _ _ _ _ _ _ (createSession_input_ok _ Hacc)).
  unfold createSession_handler. rewrite (as_user context u signed).
  unfold bind, insert_session.
  now destruct (Query.insert _ _ _ _) as [[t rows]|].
Qed.

Lemma updateSession_run i db :
  accepts updateSession_input i = true ->
  owns db (user_id u) (us_id i) ->
  updateSession i context env db
  = (inr (reply (mkSessionData
                   (hd_error (map (updateSession_set i (now env))
                                (filter (eq_text s_id (us_id i))
                                   (RephraseSessions db)))))),
     mkDb (map (fun r => if eq_text s_id (us_id i) r
                         then updateSession_set i (now env) r else r)
             (RephraseSessions db))
          (RephraseVariants db)).
Proof.
  intros Hacc Hown. unfold updateSession.
  rewrite (defineAction_accepted _ _ _ _ _ _ _ _ _ (updateSession_input_ok _ Hacc)).
  unfold updateSession_handler. rewrite (as_user context u signed).
  now rewrite then_owned.
Qed.

Lemma createVariant_run i db :
  accepts createVariant_input i = true ->
  owns db (user_id u) (cv_sessionId i) ->
  createVariant i context env db
  = match Query.insert v_id bound_variant
            (mkVariant (randomUUID env) (cv_sessionId i) (cv_tone i)
               (cv_complexity i) (cv_variantLabel i) (cv_content i)
               (match cv_isFavorite i with Some b => b | None => false end)
               (now env))
            (RephraseVariants db) with
    | None => (inl StorageFailure, db)
    | Some (t, rows) =>
        (inr (reply (mkVariantData (hd_error rows))),
         mkDb (RephraseSessions db) t)
    end.
Proof.
  intros Hacc Hown. unfold createVariant.
  rewrite (defineAction_accepted _ _ _ _ _ _ _ _ _ (createVariant_input_ok _ Hacc)).
  unfold createVariant_handler. rewrite (as_user context u signed).
  rewrite then_owned by assumption.
  unfold bind, insert_variant.
  now destruct (Query.insert _ _ _ _) as [[t rows]|].
Qed.

Lemma updateVariant_run i db :
  accepts updateVariant_input i = true ->
  owns db (user_id u) (uv_sessionId i) ->
  updateVariant i context env db
  = match filter (fun v => (v_id v =? uv_id i) && (v_sessionId v =? uv_sessionId i))
            (RephraseVariants db) with
    | [] => (inl variant_not_found, db)
    | _ :: _ =>
        (inr (reply (mkVariantData
                       (hd_error (map (updateVariant_set i)
                                    (filter (eq_text v_id (uv_id i))
                                       (RephraseVariants db)))))),
         mkDb (RephraseSessions db)
              (map (fun r => if eq_text v_id (uv_id i) r
                             then updateVariant_set i r else r)
                 (RephraseVariants db)))
    end.
Proof.
  intros Hacc Hown. unfold updateVariant.
  rewrite (defineAction_accepted _ _ _ _ _ _ _ _ _ (updateVariant_input_ok _ Hacc)).
  unfold updateVariant_handler. rewrite (as_user context u signed).
  rewrite then_owned by assumption.
  unfold bind, select_variants, Query.select.
  rewrite (filter_ext _ _ (variant_filter (uv_id i) (uv_sessionId i))).
  now destruct (filter _ _).
Qed.

Lemma deleteVariant_run i db :
  accepts deleteVariant_input i = true ->
  owns db (user_id u) (dv_sessionId i) ->
  let p := fun v => (v_id v =? dv_id i) && (v_sessionId v =? dv_sessionId i) in
  let db' := mkDb (RephraseSessions db)
               (filter (fun v => negb (p v)) (RephraseVariants db)) in
  deleteVariant i context env db
  = if (length (filter p (RephraseVariants db)) =? 0)%nat
    then (inl variant_not_found, db')
    else (inr (mkEnvelope true None), db').
Proof.
  intros Hacc Hown p db'. unfold deleteVariant.
  rewrite (defineAction_accepted _ _ _ _ _ _ _ _ _ (deleteVariant_input_ok _ Hacc)).
  unfold deleteVariant_handler. rewrite (as_user context u signed).
  rewrite then_owned by assumption.
  unfold bind, delete_variants, Query.delete.
  rewrite (filter_ext _ _ (variant_filter (dv_id i) (dv_sessionId i))).
  rewrite (filter_ext (fun r => negb (and_ _ r)) (fun v => negb (p v)))
    by (intros v; now rewrite variant_filter).
  fold p. now destruct (length (filter p (RephraseVariants db)) =? 0)%nat.
Qed.

Lemma listVariants_run i db :
  accepts listVariants_input i = true ->
  owns db (user_id u) (lr_sessionId i) ->
  let favoritesOnly :=
    match lr_favoritesOnly i with Some b => b | None => false end in
  let rows :=
    filter (fun v => (v_sessionId v =? lr_sessionId i)
                     && (if favoritesOnly then v_isFavorite v else true))
      (RephraseVariants db) in
  listVariants i context env db
  = (inr (reply (mkItems rows (length rows))), db).
Proof.
  intros Hacc Hown favoritesOnly rows. unfold listVariants.
  rewrite (defineAction_accepted _ _ _ _ _ _ _ _ _ (listVariants_input_ok _ Hacc)).
  unfold listVariants_handler. rewrite (as_user context u signed).
  simpl lv_sessionId. rewrite then_owned by assumption.
  unfold bind, select_variants, Query.select, ret. do 3 f_equal.
  assert (E : forall l, l = rows -> mkItems l (length l) = mkItems rows (length rows))
    by (intros l ->; reflexivity).
  apply E. unfold rows. apply filter_ext. intros v.
  unfold listVariants_filters, and_, eq_text, eq_bool. simpl.
  fold favoritesOnly. destruct favoritesOnly; simpl.
  - rewrite andb_true_r. now destruct (v_isFavorite v).
  - reflexivity.
Qed.
End Owner.

(* ================================================================== *)
(** * Variants: update under the wrong session, delete *)

Lemma key_unique {Row} (key : Row -> string) (t : list Row) (r r' : Row) :
  distinct (map key t) = true -> In r t -> In r' t -> key r' = key r -> r' = r.
Proof.
  intros Hd Hr Hr' Hk.
  assert (Hin : In r' (filter (fun x => key x =? key r) t)).
  { apply filter_In. split; [assumption|]. now apply String.eqb_eq. }
  rewrite (select_by_key key t r Hd Hr) in Hin. now destruct Hin as [<-|[]].
Qed.

Lemma filter_twice {Row} (p : Row -> bool) (t : list Row) :
  filter p (filter p t) = filter p t.
Proof.
  apply filter_all. intros r Hr. now apply filter_In in Hr.
Qed.

Lemma filter_after_delete {Row} (p : Row -> bool) (t : list Row) :
  filter p (filter (fun r => negb (p r)) t) = [].
Proof.
  apply filter_none. intros r Hr. apply filter_In in Hr.
  destruct Hr as [_ Hr]. now apply negb_true_iff in Hr.
Qed.

Lemma keys_ok_variants db :
  keys_ok db = true -> distinct (map v_id (RephraseVariants db)) = true.
Proof. unfold keys_ok. intros H. now apply andb_true_iff in H. Qed.

Lemma keys_ok_sessions db :
  keys_ok db = true -> distinct (map s_id (RephraseSessions db)) = true.
Proof. unfold keys_ok. intros H. now apply andb_true_iff in H. Qed.

(** C4, with the message as the code has it.  The caller is signed in and
    owns the session named in the input; the schema accepts the input
    (some field is supplied); the variant id exists but its row belongs to
    another session.  Then updateVariant fails with NOT_FOUND and the
    message "Rephrase variant not found." (full stop included), and the
    database is unchanged: the select on id and sessionId together finds no
    row, and the update statement is not reached. *)
Theorem C4_variant_under_wrong_session_not_found :
  forall db context u env i v,
    keys_ok db = true ->
    context_user context = Some u ->
    accepts updateVariant_input i = true ->
    owns db (user_id u) (uv_sessionId i) ->
    In v (RephraseVariants db) ->
    v_id v = uv_id i ->
    v_sessionId v <> uv_sessionId i ->
    updateVariant i context env db
    = (inl (ActionError NOT_FOUND "Rephrase variant not found."), db).
Proof.
  intros db context u env i v Hk Hu Hacc Hown Hv Hid Hsid.
  rewrite (updateVariant_run context u env Hu i db Hacc Hown).
  rewrite filter_none; [reflexivity|].
  intros w Hw.
  destruct (String.eqb_spec (v_id w) (uv_id i)) as [E|]; [|reflexivity].
  assert (w = v) as ->.
  { apply (key_unique v_id (RephraseVariants db)); auto using keys_ok_variants.
    congruence. }
  simpl. now apply String.eqb_neq.
Qed.

Lemma C4_wrong_session_witness :
  updateVariant (mkUpdateVariant "v1" "s2" None None None None (Some true))
    Sample.alice Sample.env1 Sample.db1
  = (inl (ActionError NOT_FOUND "Rephrase variant not found."), Sample.db1).
Proof.
  apply (C4_variant_under_wrong_session_not_found Sample.db1 Sample.alice
           (mkUser "alice") Sample.env1
           (mkUpdateVariant "v1" "s2" None None None None (Some true))
           Sample.v1).
  - reflexivity.
  - reflexivity.
  - reflexivity.
  - exists Sample.s2. simpl. auto.
  - simpl. auto.
  - reflexivity.
  - simpl. discriminate.
Defined.

(** C4 as worded fails twice over.  It names the message without its full
    stop: alice's update of variant v1 under her other session s2 fails with
    the message of the code, which is another string.  And it covers the call
    that supplies no field at all, which the schema turns down before the
    handler runs: the failure is then the input error, not NOT_FOUND. *)
Lemma C4_message_counterexample :
  updateVariant (mkUpdateVariant "v1" "s2" None None None None (Some true))
    Sample.alice Sample.env1 Sample.db1
  = (inl (ActionError NOT_FOUND "Rephrase variant not found."), Sample.db1)
  /\ updateVariant (mkUpdateVariant "v1" "s2" None None None None (Some true))
       Sample.alice Sample.env1 Sample.db1
     <> (inl (ActionError NOT_FOUND "Rephrase variant not found"), Sample.db1)
  /\ updateVariant (mkUpdateVariant "v1" "s2" None None None None None)
       Sample.alice Sample.env1 Sample.db1
     = (inl (ActionInputError
               [custom "At least one field must be provided to update."]),
        Sample.db1).
Proof. split; [reflexivity|split; [|reflexivity]]. vm_compute. discriminate. Qed.

Lemma accepted_delete_ids i :
  accepts deleteVariant_input i = true -> dv_id i <> "" /\ dv_sessionId i <> "".
Proof.
  unfold accepts, deleteVariant_input. intros H.
  apply accepts_parsed in H. destruct H as [H _].
  apply app_eq_nil in H. destruct H as [H1 H2].
  split; [apply (min_1_ok "id")|apply (min_1_ok "sessionId")]; assumption.
Qed.

(** C5.  The caller is signed in and owns the session named in the input,
    which the schema accepts.  (a) If no variant carries both the id and the
    session id, deleteVariant fails with NOT_FOUND and the database is
    unchanged.  (b) If a variant does, deleteVariant answers
    [{ success: true }] with no data; sessions are untouched; listVariants on
    that session, with or without favoritesOnly, then succeeds with items
    among which neither that variant nor any row under its id occurs; and
    the same deleteVariant call made again fails with NOT_FOUND. *)
Theorem C5_deleteVariant_then_gone :
  forall db context u env i,
    context_user context = Some u ->
    accepts deleteVariant_input i = true ->
    owns db (user_id u) (dv_sessionId i) ->
    ((forall v, In v (RephraseVariants db) ->
                ~ (v_id v = dv_id i /\ v_sessionId v = dv_sessionId i)) ->
     deleteVariant i context env db
     = (inl (ActionError NOT_FOUND "Rephrase variant not found."), db))
    /\ (forall v, In v (RephraseVariants db) ->
                  v_id v = dv_id i -> v_sessionId v = dv_sessionId i ->
        exists db',
          deleteVariant i context env db = (inr (mkEnvelope true None), db')
          /\ RephraseSessions db' = RephraseSessions db
          /\ (forall favoritesOnly env', exists rows,
                listVariants (mkListVariantsRaw (dv_sessionId i) favoritesOnly)
                  context env' db'
                = (inr (mkEnvelope true (Some (mkItems rows (length rows)))), db')
                /\ ~ In v rows
                /\ (forall w, In w rows -> v_id w <> dv_id i))
          /\ (forall env',
                deleteVariant i context env' db'
                = (inl (ActionError NOT_FOUND "Rephrase variant not found."), db'))).
Proof.
  intros db context u env i Hu Hacc Hown.
  pose (p := fun v => (v_id v =? dv_id i) && (v_sessionId v =? dv_sessionId i)).
  split.
  - intros Hnone.
    rewrite (deleteVariant_run context u env Hu i db Hacc Hown). fold p.
    assert (Hp : forall v, In v (RephraseVariants db) -> p v = false).
    { intros v Hv. unfold p.
      destruct (String.eqb_spec (v_id v) (dv_id i)); [|reflexivity].
      destruct (String.eqb_spec (v_sessionId v) (dv_sessionId i)); [|reflexivity].
      exfalso. now apply (Hnone v Hv). }
    rewrite (filter_none p _ Hp).
    rewrite (filter_all (fun v => negb (p v)))
      by (intros v Hv; now rewrite (Hp v Hv)).
    simpl. now rewrite db_eta.
  - intros v Hv Hid Hsid.
    assert (Hpv : p v = true) by (unfold p; now rewrite Hid, Hsid, !String.eqb_refl).
    set (db' := mkDb (RephraseSessions db)
                  (filter (fun w => negb (p w)) (RephraseVariants db))).
    assert (Hown' : owns db' (user_id u) (dv_sessionId i)) by exact Hown.
    exists db'. split; [|split; [reflexivity|split]].
    + rewrite (deleteVariant_run context u env Hu i db Hacc Hown). fold p. fold db'.
      assert (Hin : In v (filter p (RephraseVariants db)))
        by (apply filter_In; now split).
      now destruct (filter p (RephraseVariants db)).
    + intros favoritesOnly env'.
      assert (Hacc' : accepts listVariants_input
                        (mkListVariantsRaw (dv_sessionId i) favoritesOnly) = true).
      { unfold accepts, listVariants_input. simpl.
        destruct (accepted_delete_ids i Hacc) as [_ Hs].
        apply (min_1_ok "sessionId") in Hs. now rewrite Hs. }
      rewrite (listVariants_run context u env' Hu _ db' Hacc' Hown').
      eexists. split; [reflexivity|]. simpl.
      assert (Hgone : forall w,
                 In w (filter (fun w => negb (p w)) (RephraseVariants db)) ->
                 v_sessionId w = dv_sessionId i -> v_id w <> dv_id i).
      { intros w Hw Hws Hwid. apply filter_In in Hw. destruct Hw as [_ Hw].
        apply negb_true_iff in Hw. unfold p in Hw.
        now rewrite Hwid, Hws, !String.eqb_refl in Hw. }
      split.
      * intros Hin. apply filter_In in Hin. destruct Hin as [Hin _].
        now apply (Hgone v Hin Hsid).
      * intros w Hw. apply filter_In in Hw. destruct Hw as [Hw Hf].
        apply andb_true_iff in Hf. destruct Hf as [Hf _].
        apply String.eqb_eq in Hf. now apply Hgone.
    + intros env'.
      rewrite (deleteVariant_run context u env' Hu i db' Hacc Hown'). fold p.
      simpl RephraseVariants. rewrite filter_after_delete. simpl.
      unfold db'. simpl. now rewrite filter_twice.
Qed.

Lemma C5_deleteVariant_witness :
  deleteVariant (mkDeleteVariant "v9" "s1") Sample.alice Sample.env1 Sample.db1
  = (inl (ActionError NOT_FOUND "Rephrase variant not found."), Sample.db1)
  /\ exists db',
       deleteVariant (mkDeleteVariant "v1" "s1") Sample.alice Sample.env1 Sample.db1
       = (inr (mkEnvelope true None), db')
       /\ deleteVariant (mkDeleteVariant "v1" "s1") Sample.alice Sample.env2 db'
          = (inl (ActionError NOT_FOUND "Rephrase variant not found."), db').
Proof.
  split.
  - refine (proj1 (C5_deleteVariant_then_gone Sample.db1 Sample.alice
                     (mkUser "alice") Sample.env1 (mkDeleteVariant "v9" "s1")
                     _ _ _) _).
    + reflexivity.
    + reflexivity.
    + exists Sample.s1. simpl. auto.
    + simpl. intros v [<-|[<-|[]]] [H _]; discriminate H.
  - destruct (proj2 (C5_deleteVariant_then_gone Sample.db1 Sample.alice
                       (mkUser "alice") Sample.env1 (mkDeleteVariant "v1" "s1")
                       eq_refl eq_refl
                       (ex_intro _ Sample.s1
                          (conj (or_introl eq_refl) (conj eq_refl eq_refl))))
                Sample.v1 (or_introl eq_refl) eq_refl eq_refl)
      as (db' & Hdel & _ & _ & Hagain).
    exists db'. split; [exact Hdel|apply Hagain].
Defined.

(* ================================================================== *)
(** * Updates that supply no field *)

Lemma parsed_issue In (l : list ZodIssue) (x : ZodIssue) (v : In) :
  parsed (l ++ [x]) v = inl (l ++ [x]).
Proof. now destruct l. Qed.

(** C6.  An updateSession input with none of language, context and
    originalText, and an updateVariant input with none of tone, complexity,
    variantLabel, content and isFavorite, is turned down by the schema: the
    call fails with the input error (code BAD_REQUEST) listing "At least one
    field must be provided to update.", whoever calls and whatever the
    database holds, and the database is unchanged; in particular the call is
    no success. *)
Theorem C6_update_without_fields_is_invalid :
  forall context env db,
    (forall id, exists issues,
        updateSession (mkUpdateSession id None None None) context env db
        = (inl (ActionInputError issues), db)
        /\ In (custom "At least one field must be provided to update.") issues
        /\ failure_code (ActionInputError issues) = Some BAD_REQUEST)
    /\ (forall id sessionId, exists issues,
        updateVariant (mkUpdateVariant id sessionId None None None None None)
          context env db
        = (inl (ActionInputError issues), db)
        /\ In (custom "At least one field must be provided to update.") issues
        /\ failure_code (ActionInputError issues) = Some BAD_REQUEST).
Proof.
  intros context env db. split.
  - intros id. exists (min_ 1 "id" id ++ [custom at_least_one]).
    split; [|split; [apply in_or_app; right; now left|reflexivity]].
    apply defineAction_rejected. unfold updateSession_input. simpl.
    apply parsed_issue.
  - intros id sessionId.
    exists ((min_ 1 "id" id ++ min_ 1 "sessionId" sessionId) ++ [custom at_least_one]).
    split; [|split; [apply in_or_app; right; now left|reflexivity]].
    apply defineAction_rejected. unfold updateVariant_input. simpl.
    rewrite app_assoc. apply parsed_issue.
Qed.

(* ================================================================== *)
(** * Sessions: create and update *)

Lemma map_update_by_key {Row} (key : Row -> string) (f : Row -> Row)
    (t : list Row) (r : Row) :
  distinct (map key t) = true -> In r t ->
  map (fun x => if key x =? key r then f x else x) t
  = map (fun x => if key x =? key r then f r else x) t.
Proof.
  intros Hd Hr. apply map_ext_in. intros x Hx.
  destruct (String.eqb_spec (key x) (key r)) as [E|]; [|reflexivity].
  now rewrite (key_unique key t r x Hd Hr Hx E).
Qed.

Lemma text_nul_free s : nul_free s = true -> text s = s.
Proof.
  induction s as [|c s IH]; simpl; [reflexivity|].
  destruct (Ascii.eqb c Ascii.zero); simpl; [discriminate|].
  intros H. now rewrite IH.
Qed.

Lemma text_prefix s : exists rest, s = (text s ++ rest)%string.
Proof.
  induction s as [|c s [rest IH]]; simpl.
  - now exists "".
  - destruct (Ascii.eqb c Ascii.zero).
    + now exists (String c s).
    + exists rest. simpl. now rewrite <- IH.
Qed.

(** C7, with the supplied text as the database keeps it.  The caller is
    signed in and owns the stored session [S] (session ids distinct); the
    schema accepts the input.  Then updateSession succeeds and returns the
    updated record [S']: each of language, context and originalText is the
    supplied value up to its first U+0000 (the supplied value itself when it
    holds none), or that of [S] when none is supplied; updatedAt is the
    current instant; id, userId and createdAt are those of [S].  In the
    table [S'] stands where [S] stood and every other row is as before;
    variants are untouched. *)
Theorem C7_updateSession_overwrites_supplied_fields :
  forall db context u env i S,
    keys_ok db = true ->
    context_user context = Some u ->
    accepts updateSession_input i = true ->
    In S (RephraseSessions db) ->
    s_id S = us_id i ->
    s_userId S = user_id u ->
    exists S' db',
      updateSession i context env db
      = (inr (mkEnvelope true (Some (mkSessionData (Some S')))), db')
      /\ s_language S'
         = match us_language i with
           | Some x => Some (text x) | None => s_language S end
      /\ s_context S'
         = match us_context i with
           | Some x => Some (text x) | None => s_context S end
      /\ s_originalText S'
         = match us_originalText i with
           | Some x => text x | None => s_originalText S end
      /\ (forall x, nul_free x = true -> text x = x)
      /\ s_updatedAt S' = now env
      /\ s_id S' = s_id S
      /\ s_userId S' = s_userId S
      /\ s_createdAt S' = s_createdAt S
      /\ RephraseSessions db'
         = map (fun r => if s_id r =? s_id S then S' else r) (RephraseSessions db)
      /\ In S' (RephraseSessions db')
      /\ RephraseVariants db' = RephraseVariants db.
Proof.
  intros db context u env i S Hk Hu Hacc HS Hid Huid.
  pose proof (keys_ok_sessions db Hk) as Hd.
  exists (updateSession_set i (now env) S). eexists.
  split.
  - rewrite (updateSession_run context u env Hu i db Hacc).
    2:{ exists S. auto. }
    unfold eq_text. rewrite <- Hid.
    rewrite (select_by_key s_id _ S Hd HS). simpl hd_error.
    rewrite (map_update_by_key s_id _ _ S Hd HS). reflexivity.
  - split; [simpl; now destruct (us_language i)|].
    split; [simpl; now destruct (us_context i)|].
    split; [simpl; now destruct (us_originalText i)|].
    split; [exact text_nul_free|].
    repeat split; try reflexivity.
    simpl. apply in_map_iff. exists S. split; [|assumption].
    now rewrite String.eqb_refl.
Qed.

Lemma C7_updateSession_witness :
  exists S' db',
    updateSession (mkUpdateSession "s2" None None (Some "New text"))
      Sample.alice Sample.env1 Sample.db1
    = (inr (mkEnvelope true (Some (mkSessionData (Some S')))), db')
    /\ S' = mkSession "s2" "alice" (Some "en") None "New text" 20%Z 1000%Z.
Proof.
  destruct (C7_updateSession_overwrites_supplied_fields Sample.db1 Sample.alice
              (mkUser "alice") Sample.env1
              (mkUpdateSession "s2" None None (Some "New text")) Sample.s2
              eq_refl eq_refl eq_refl (or_intror (or_introl eq_refl))
              eq_refl eq_refl)
    as (S' & db' & Hrun & Hl & Hc & Ht & _ & Hup & Hid & Hu & Hcr & _).
  exists S', db'. split; [exact Hrun|].
  destruct S'; simpl in *. now subst.
Defined.

(** C7 as worded fails on a supplied text that holds U+0000: alice updates
    her session s2 with "New", U+0000, "text"; the record returned has
    originalText "New", not the text supplied.  It also covers the update
    that supplies no field, which returns no record: the schema turns it
    down. *)
Lemma C7_text_counterexample :
  fst (updateSession
         (mkUpdateSession "s2" None None (Some ("New" ++ Sample.nul ++ "text")%string))
         Sample.alice Sample.env1 Sample.db1)
  = inr (mkEnvelope true
           (Some (mkSessionData
                    (Some (mkSession "s2" "alice" (Some "en") None "New"
                             20%Z 1000%Z)))))
  /\ "New" <> ("New" ++ Sample.nul ++ "text")%string
  /\ updateSession (mkUpdateSession "s2" None None None)
       Sample.alice Sample.env1 Sample.db1
     = (inl (ActionInputError
               [custom "At least one field must be provided to update."]),
        Sample.db1).
Proof. split; [reflexivity|split; [discriminate|reflexivity]]. Qed.

(** C8, with the text as the database keeps it.  A signed-in user creates
    a session from a non-empty text, with neither language nor context, and
    [crypto.randomUUID()] gives an id no stored session has.  The call
    succeeds; the record returned carries that id, the caller's id as
    userId, the text given up to its first U+0000 (the text itself when it
    holds none), no language and no context, and the current instant both
    as createdAt and as updatedAt; it is appended to the table.  Conversely
    a record is only ever created under an id that no stored session had. *)
Theorem C8_createSession_record :
  forall db context u env original,
    context_user context = Some u ->
    original <> "" ->
    ((forall s, In s (RephraseSessions db) -> s_id s <> randomUUID env) ->
     exists S,
       createSession (mkCreateSession None None original) context env db
       = (inr (mkEnvelope true (Some (mkSessionData (Some S)))),
          mkDb (RephraseSessions db ++ [S]) (RephraseVariants db))
       /\ s_id S = randomUUID env
       /\ s_userId S = user_id u
       /\ s_originalText S = text original
       /\ (nul_free original = true -> s_originalText S = original)
       /\ s_language S = None
       /\ s_context S = None
       /\ s_createdAt S = now env
       /\ s_createdAt S = s_updatedAt S)
    /\ (forall r db',
          createSession (mkCreateSession None None original) context env db
          = (inr r, db') ->
          forall s, In s (RephraseSessions db) -> s_id s <> randomUUID env).
Proof.
  intros db context u env original Hu Htext.
  assert (Hacc : accepts createSession_input (mkCreateSession None None original)
                 = true).
  { unfold accepts, createSession_input. simpl.
    apply (min_1_ok "originalText") in Htext. now rewrite Htext. }
  rewrite (createSession_run context u env Hu _ db Hacc).
  unfold Query.insert. simpl.
  destruct (existsb (fun r' => s_id r' =? randomUUID env) (RephraseSessions db))
    eqn:E.
  - apply existsb_exists in E. destruct E as (s & Hs & E).
    apply String.eqb_eq in E. split.
    + intros Hfresh. now destruct (Hfresh s Hs).
    + intros r db' Hrun. discriminate Hrun.
  - split.
    + intros _. eexists. split; [reflexivity|]. simpl.
      repeat split. apply text_nul_free.
    + intros r db' _ s Hs Eq.
      assert (Ht : existsb (fun r' => s_id r' =? randomUUID env)
                     (RephraseSessions db) = true).
      { apply existsb_exists. exists s. split; [assumption|].
        now apply String.eqb_eq. }
      congruence.
Qed.

Lemma C8_createSession_witness :
  exists S,
    createSession (mkCreateSession None None "Hello world")
      Sample.alice Sample.env1 Sample.db1
    = (inr (mkEnvelope true (Some (mkSessionData (Some S)))),
       mkDb (RephraseSessions Sample.db1 ++ [S]) (RephraseVariants Sample.db1))
    /\ S = mkSession "id-1" "alice" None None "Hello world" 1000%Z 1000%Z.
Proof.
  destruct (proj1 (C8_createSession_record Sample.db1 Sample.alice
                     (mkUser "alice") Sample.env1 "Hello world" eq_refl
                     ltac:(discriminate)))
    as (S & Hrun & H1 & H2 & H3 & _ & H4 & H5 & H6 & H7).
  - simpl. intros s [<-|[<-|[]]]; discriminate.
  - exists S. split; [exact Hrun|].
    destruct S; simpl in *. now subst.
Defined.

(** C8 as worded fails on a text that holds U+0000: alice creates a session
    from "a", U+0000, "b"; the record returned has originalText "a", not
    the input. *)
Lemma C8_text_counterexample :
  fst (createSession
         (mkCreateSession None None ("a" ++ Sample.nul ++ "b")%string)
         Sample.alice Sample.env1 Sample.db1)
  = inr (mkEnvelope true
           (Some (mkSessionData
                    (Some (mkSession "id-1" "alice" None None "a"
                             1000%Z 1000%Z)))))
  /\ "a" <> ("a" ++ Sample.nul ++ "b")%string.
Proof. split; [reflexivity|discriminate]. Qed.

(* ================================================================== *)
(** * One statement that writes, at most, per call *)

Lemma reads_ret A (a : A) : reads (ret a).
Proof. now intros db. Qed.

Lemma reads_throw A f : reads (@throw A f).
Proof. now intros db. Qed.

Lemma reads_lift A (r : Failure + A) : reads (lift r).
Proof. now intros db. Qed.

Lemma reads_select_sessions p : reads (select_sessions p).
Proof. now intros db. Qed.

Lemma reads_select_variants p : reads (select_variants p).
Proof. now intros db. Qed.

Lemma reads_bind A B (m : Action A) (k : A -> Action B) :
  reads m -> (forall a, reads (k a)) -> reads (bind m k).
Proof.
  intros Hm Hk db. unfold bind. specialize (Hm db).
  destruct (m db) as [[f|a] db']; simpl in *; [assumption|].
  now rewrite Hk.
Qed.

Lemma reads_getOwnedSession sid uid : reads (getOwnedSession sid uid).
Proof.
  apply reads_bind; [apply reads_select_sessions|].
  intros [|S rest]; [apply reads_throw|apply reads_ret].
Qed.

Lemma writes_of_reads del A (m : Action A) : reads m -> writes del m.
Proof. intros H db. rewrite H. constructor. Qed.

Lemma writes_after_reads del A B (m : Action A) (k : A -> Action B) :
  reads m -> (forall a, writes del (k a)) -> writes del (bind m k).
Proof.
  intros Hm Hk db. unfold bind. specialize (Hm db).
  destruct (m db) as [[f|a] db']; simpl in *; subst db'; [constructor|].
  apply Hk.
Qed.

Lemma writes_then_reads del A B (m : Action A) (k : A -> Action B) :
  writes del m -> (forall a, reads (k a)) -> writes del (bind m k).
Proof.
  intros Hm Hk db. unfold bind. specialize (Hm db).
  destruct (m db) as [[f|a] db']; simpl in *; [assumption|].
  now rewrite Hk.
Qed.

Lemma writes_insert_session del r : writes del (insert_session r).
Proof.
  intros db. unfold insert_session, Query.insert.
  destruct (existsb _ _) eqn:E; simpl; [constructor|].
  now apply written_session.
Qed.

Lemma writes_insert_variant del r : writes del (insert_variant r).
Proof.
  intros db. unfold insert_variant, Query.insert.
  destruct (existsb _ _) eqn:E; simpl; [constructor|].
  now apply written_variant.
Qed.

Lemma writes_update_sessions del p i at_ :
  writes del (update_sessions p (updateSession_set i at_)).
Proof. intros db. apply written_session_update. Qed.

Lemma writes_update_variants del p i :
  writes del (update_variants p (updateVariant_set i)).
Proof. intros db. apply written_variant_update. Qed.

Lemma writes_delete_variants p : writes true (delete_variants p).
Proof. intros db. now apply written_variant_delete. Qed.

Lemma writes_defineAction del Raw In Out (input : Schema Raw In)
    (handler : In -> ActionAPIContext -> Env -> Action Out) raw context env :
  (forall i, writes del (handler i context env)) ->
  writes del (defineAction input handler raw context env).
Proof.
  intros H. unfold defineAction.
  destruct (input raw); [apply writes_of_reads, reads_throw|apply H].
Qed.

Create HintDb effects.
#[local] Hint Resolve reads_ret reads_throw reads_lift reads_select_sessions
  reads_select_variants reads_getOwnedSession writes_insert_session
  writes_insert_variant writes_update_sessions writes_update_variants
  writes_delete_variants : effects.

Ltac read_only :=
  repeat first
    [ solve [auto with effects]
    | apply reads_bind; [|intros ?]
    | match goal with
      | |- reads (match ?x with _ => _ end) => destruct x
      | |- reads (if ?x then _ else _) => destruct x
      end ].

Ltac one_write :=
  repeat first
    [ apply writes_defineAction; intros ?
    | solve [auto with effects]
    | solve [apply writes_of_reads; read_only]
    | apply writes_after_reads; [solve [read_only]|intros ?]
    | apply writes_then_reads; [solve [auto with effects]|intros ?; solve [read_only]]
    | match goal with
      | |- writes _ (match ?x with _ => _ end) => destruct x
      | |- writes _ (if ?x then _ else _) => destruct x
      end ].

Lemma actions_write_once context env :
  (forall i, writes false (createSession i context env))
  /\ (forall i, writes false (updateSession i context env))
  /\ (forall i, writes false (listSessions i context env))
  /\ (forall i, writes false (createVariant i context env))
  /\ (forall i, writes false (updateVariant i context env))
  /\ (forall i, writes true (deleteVariant i context env))
  /\ (forall i, writes false (listVariants i context env)).
Proof.
  repeat split; intros i;
    unfold createSession, updateSession, listSessions, createVariant,
      updateVariant, deleteVariant, listVariants;
    unfold createSession_handler, updateSession_handler, listSessions_handler,
      createVariant_handler, updateVariant_handler, deleteVariant_handler,
      listVariants_handler;
    one_write.
Qed.

Lemma exec_written c context env db :
  written (is_delete c) db (exec c context env db).
Proof.
  unfold exec, run.
  destruct (actions_write_once context env)
    as (H1 & H2 & H3 & H4 & H5 & H6 & H7).
  destruct c; rewrite snd_outcome; simpl;
    [ apply H1 | apply H2 | apply H3 | apply H4 | apply H5 | apply H6
    | apply H7 ].
Qed.

(* ================================================================== *)
(** * Variants: what an update cannot change *)

Lemma map_identity_update (p : RephraseVariant -> bool) i t :
  map identity (map (fun r => if p r then updateVariant_set i r else r) t)
  = map identity t.
Proof.
  rewrite map_map. apply map_ext. intros r. now destruct (p r).
Qed.

Lemma identity_update_variants l p i :
  preserves (fun d => map identity (RephraseVariants d) = l)
    (update_variants p (updateVariant_set i)).
Proof.
  intros d H. unfold update_variants, Query.update. simpl.
  now rewrite map_identity_update.
Qed.

#[local] Hint Resolve identity_update_variants : keys.

Lemma written_same_row del d d' v v' :
  written del d d' -> keys_ok d = true ->
  In v (RephraseVariants d) -> In v' (RephraseVariants d') ->
  v_id v' = v_id v -> identity v' = identity v.
Proof.
  intros W Hk Hv Hv' Hid. pose proof (keys_ok_variants d Hk) as Hd.
  assert (Hsame : In v' (RephraseVariants d) -> identity v' = identity v).
  { intros H. now rewrite (key_unique v_id _ v v' Hd Hv H Hid). }
  destruct W as [|r Hr|p i at_|r Hr|p i|p Hdel]; simpl in Hv'; auto.
  - apply in_app_or in Hv'. destruct Hv' as [H|[<-|[]]]; [auto|].
    exfalso. rewrite existsb_key_insert in Hr.
    pose proof (existsb_key_false v_id _ _ Hr v Hv) as E.
    rewrite Hid, String.eqb_refl in E. discriminate.
  - apply in_map_iff in Hv'. destruct Hv' as (w & <- & Hw).
    assert (Hw_id : v_id w = v_id v) by (rewrite <- Hid; now destruct (p w)).
    rewrite (key_unique v_id _ v w Hd Hv Hw Hw_id). now destruct (p v).
  - apply filter_In in Hv'. now apply Hsame.
Qed.

Lemma written_keeps_identity d d' v :
  written false d d' -> In v (RephraseVariants d) ->
  In (identity v) (map identity (RephraseVariants d')).
Proof.
  intros W Hv. pose proof (in_map identity _ _ Hv) as H.
  destruct W as [|r Hr|p i at_|r Hr|p i|p Hdel]; simpl; auto.
  - rewrite map_app. apply in_or_app. now left.
  - now rewrite map_identity_update.
  - discriminate.
Qed.

Lemma getOwnedSession_inv sid uid db S db' :
  getOwnedSession sid uid db = (inr S, db') -> owns db uid sid.
Proof.
  rewrite getOwnedSession_single_query.
  destruct (filter _ _) as [|r rest] eqn:E; [discriminate|]. intros _.
  assert (Hr : In r (filter (fun r => (s_id r =? sid) && (s_userId r =? uid))
                       (RephraseSessions db))) by (rewrite E; now left).
  apply filter_In in Hr. destruct Hr as [Hr Hp].
  apply andb_true_iff in Hp. destruct Hp as [H1 H2].
  exists r. repeat split; [assumption| |]; now apply String.eqb_eq.
Qed.

(** A successful updateVariant went past the schema, the sign-in guard and
    the resolver. *)
Lemma updateVariant_success i context env db r db' :
  updateVariant i context env db = (inr r, db') ->
  exists u, context_user context = Some u
            /\ accepts updateVariant_input i = true
            /\ owns db (user_id u) (uv_sessionId i).
Proof.
  unfold updateVariant, defineAction, accepts.
  destruct (updateVariant_input i) as [issues|value] eqn:Hin; [discriminate|].
  assert (value = i) as ->.
  { unfold updateVariant_input, parsed in Hin.
    destruct (_ ++ _); congruence. }
  unfold updateVariant_handler, requireUser.
  destruct (context_user context) as [u|]; [|discriminate].
  intros H. exists u. repeat split.
  change ((x <- lift (inr u) ;; _) db) with
    ((getOwnedSession (uv_sessionId i) (user_id u) ;;
      existing <- select_variants
                    (and_ [eq_text v_id (uv_id i);
                           eq_text v_sessionId (uv_sessionId i)]) ;;
      match existing with
      | [] => throw variant_not_found
      | _ :: _ =>
          rows <- update_variants (eq_text v_id (uv_id i)) (updateVariant_set i) ;;
          ret (reply (mkVariantData (hd_error rows)))
      end) db) in H.
  unfold bind at 1 in H.
  destruct (getOwnedSession _ _ db) as [[f|S] d] eqn:E; [discriminate|].
  now apply getOwnedSession_inv in E.
Qed.

(** C10.  updateVariant, whatever its outcome, leaves the list of
    (id, sessionId, createdAt) of the stored variants as it was.  When it
    succeeds, there was a row [v] under the id and the session id of the
    input; the record returned has the id, sessionId and createdAt of [v];
    the new table is the old one with that record in the place of the row
    whose id is the input's (the write selects by id alone); sessions are
    untouched.  Over any single call of any action, a row found under the
    same id before and after has the same sessionId and createdAt; and
    over any sequence of calls without a delete, every variant keeps its
    (id, sessionId, createdAt). *)
Theorem C10_updateVariant_keeps_identity :
  forall i context env db,
    map identity (RephraseVariants (snd (updateVariant i context env db)))
    = map identity (RephraseVariants db)
    /\ (forall r db',
          keys_ok db = true ->
          updateVariant i context env db = (inr r, db') ->
          exists v v',
            In v (RephraseVariants db)
            /\ v_id v = uv_id i /\ v_sessionId v = uv_sessionId i
            /\ r = mkEnvelope true (Some (mkVariantData (Some v')))
            /\ v_id v' = v_id v
            /\ v_sessionId v' = v_sessionId v
            /\ v_createdAt v' = v_createdAt v
            /\ RephraseVariants db'
               = map (fun w => if v_id w =? uv_id i then v' else w)
                   (RephraseVariants db)
            /\ RephraseSessions db' = RephraseSessions db)
    /\ (forall c context' env' v v',
          keys_ok db = true ->
          In v (RephraseVariants db) ->
          In v' (RephraseVariants (exec c context' env' db)) ->
          v_id v' = v_id v ->
          v_sessionId v' = v_sessionId v /\ v_createdAt v' = v_createdAt v)
    /\ (forall cs v,
          forallb (fun x => negb (is_delete (fst (fst x)))) cs = true ->
          In v (RephraseVariants db) ->
          In (identity v) (map identity (RephraseVariants (exec_all cs db)))).
Proof.
  intros i context env db. split; [|split; [|split]].
  - assert (H : preserves
                 (fun d => map identity (RephraseVariants d)
                           = map identity (RephraseVariants db))
                 (updateVariant i context env)).
    { unfold updateVariant, updateVariant_handler. preserve. }
    now apply H.
  - intros r db' Hk Hrun.
    destruct (updateVariant_success i context env db r db' Hrun)
      as (u & Hu & Hacc & Hown).
    rewrite (updateVariant_run context u env Hu i db Hacc Hown) in Hrun.
    destruct (filter _ _) as [|v rest] eqn:E; [discriminate|].
    assert (Hv : In v (filter (fun v => (v_id v =? uv_id i)
                                        && (v_sessionId v =? uv_sessionId i))
                         (RephraseVariants db))) by (rewrite E; now left).
    apply filter_In in Hv. destruct Hv as [Hv Hp].
    apply andb_true_iff in Hp. destruct Hp as [H1 H2].
    apply String.eqb_eq in H1. apply String.eqb_eq in H2.
    pose proof (keys_ok_variants db Hk) as Hd.
    unfold eq_text in Hrun. rewrite <- H1 in Hrun.
    rewrite (select_by_key v_id _ v Hd Hv) in Hrun.
    rewrite (map_update_by_key v_id _ _ v Hd Hv) in Hrun.
    simpl in Hrun. injection Hrun as <- <-.
    exists v, (updateVariant_set i v). rewrite <- H1.
    repeat split; assumption.
  - intros c context' env' v v' Hk Hv Hv' Hid.
    pose proof (written_same_row _ _ _ v v' (exec_written c context' env' db)
                  Hk Hv Hv' Hid) as E.
    unfold identity in E. now inversion E.
  - intros cs. revert db. induction cs as [|[[c context'] env'] cs IH];
      intros db v Hcs Hv; simpl in *.
    + now apply in_map.
    + apply andb_true_iff in Hcs. destruct Hcs as [Hc Hcs].
      apply negb_true_iff in Hc.
      pose proof (exec_written c context' env' db) as W. rewrite Hc in W.
      pose proof (written_keeps_identity db _ v W Hv) as Hin.
      apply in_map_iff in Hin. destruct Hin as (w & Ew & Hw).
      rewrite <- Ew. now apply IH.
Qed.

Lemma C10_updateVariant_witness :
  exists v v',
    In v (RephraseVariants Sample.db1)
    /\ v_id v = "v1" /\ v_sessionId v = "s1"
    /\ v_id v' = v_id v
    /\ v_sessionId v' = v_sessionId v
    /\ v_createdAt v' = v_createdAt v.
Proof.
  destruct (proj1 (proj2
              (C10_updateVariant_keeps_identity
                 (mkUpdateVariant "v1" "s1" None None None None (Some true))
                 Sample.alice Sample.env1 Sample.db1))
              (mkEnvelope true
                 (Some (mkVariantData
                          (Some (mkVariant "v1" "s1" None None None
                                   "Variant A" true 30%Z)))))
              (mkDb [Sample.s1; Sample.s2]
                 [mkVariant "v1" "s1" None None None "Variant A" true 30%Z;
                  Sample.v2])
              eq_refl eq_refl)
    as (v & v' & Hv & H1 & H2 & _ & H3 & H4 & H5 & _).
  exists v, v'. repeat split; assumption.
Defined.

(* ================================================================== *)
(** * Variants: favourites *)

Lemma filter_fresh (k : string) (t : list RephraseVariant) :
  (forall w, In w t -> v_id w <> k) ->
  forall w, In w t -> (v_id w =? k) = false.
Proof. intros H w Hw. apply String.eqb_neq. now apply H. Qed.

Lemma existsb_fresh (k : string) (t : list RephraseVariant) :
  (forall w, In w t -> v_id w <> k) ->
  existsb (fun r' => v_id r' =? k) t = false.
Proof.
  intros H. induction t as [|a t IH]; simpl; [reflexivity|].
  rewrite IH by (intros w Hw; apply H; now right).
  rewrite (filter_fresh k (a :: t) H a); [reflexivity|now left].
Qed.

Lemma accepted_listing sid fav :
  sid <> "" ->
  accepts listVariants_input (mkListVariantsRaw sid fav) = true.
Proof.
  intros H. unfold accepts, listVariants_input. simpl.
  apply (min_1_ok "sessionId") in H. now rewrite H.
Qed.

Lemma filter_map_single {Row} (key : Row -> string) (p : Row -> bool)
    (t : list Row) (v v' : Row) :
  distinct (map key t) = true -> In v t -> p v' = true ->
  (forall w, In w t -> key w <> key v -> p w = false) ->
  filter p (map (fun w => if key w =? key v then v' else w) t) = [v'].
Proof.
  induction t as [|a t IH]; simpl; intros Hd Hv Hp Hothers; [contradiction|].
  apply andb_true_iff in Hd. destruct Hd as [Ha Hd].
  apply negb_true_iff in Ha.
  destruct (String.eqb_spec (key a) (key v)) as [E|E].
  - rewrite Hp. f_equal. apply filter_none. intros w Hw.
    apply in_map_iff in Hw. destruct Hw as (x & <- & Hx).
    pose proof (existsb_key_false key _ _ Ha x Hx) as Hne.
    rewrite <- E, Hne. apply Hothers; [now right|].
    rewrite <- E. now apply String.eqb_neq.
  - rewrite (Hothers a (or_introl eq_refl) E).
    destruct Hv as [Ea|Hv]; [subst a; now destruct E|].
    apply IH; auto.
Qed.

(** C9, with the listing after the update as the code gives it.  For a
    signed-in caller:
    - listVariants with favoritesOnly on a session the caller owns
      (non-empty id) returns the stored variants of that session whose
      isFavorite is true, in table order, and total is their number;
    - a variant created there without isFavorite (non-empty content,
      generated id not yet stored) is stored with isFavorite false, and that
      listing, made after the creation, is what it was before: the new
      variant is not in it;
    - updateVariant with isFavorite true and no other field, on a stored
      variant [v] of the session (variant ids distinct, non-empty id),
      returns [v] with isFavorite true; the listing then consists of that
      record and of the favourites the session had under other ids; it is
      that record alone when the session had no other favourite. *)
Theorem C9_favorites_listing :
  forall context u,
    context_user context = Some u ->
    let favorites sid d :=
      filter (fun w => (v_sessionId w =? sid) && v_isFavorite w)
        (RephraseVariants d) in
    (forall d sid env,
        owns d (user_id u) sid -> sid <> "" ->
        listVariants (mkListVariantsRaw sid (Some true)) context env d
        = (inr (mkEnvelope true
                  (Some (mkItems (favorites sid d) (length (favorites sid d))))),
           d))
    /\ (forall db env sid tone complexity label content,
          owns db (user_id u) sid ->
          sid <> "" -> content <> "" ->
          (forall w, In w (RephraseVariants db) -> v_id w <> randomUUID env) ->
          exists v db1,
            createVariant
              (mkCreateVariant sid tone complexity label content None)
              context env db
            = (inr (mkEnvelope true (Some (mkVariantData (Some v)))), db1)
            /\ v_id v = randomUUID env
            /\ v_sessionId v = sid
            /\ v_isFavorite v = false
            /\ In v (RephraseVariants db1)
            /\ (forall env1,
                  listVariants (mkListVariantsRaw sid (Some true)) context env1 db1
                  = (inr (mkEnvelope true
                            (Some (mkItems (favorites sid db)
                                     (length (favorites sid db))))), db1))
            /\ ~ In v (favorites sid db))
    /\ (forall db env sid v,
          keys_ok db = true ->
          owns db (user_id u) sid ->
          sid <> "" ->
          In v (RephraseVariants db) ->
          v_sessionId v = sid ->
          v_id v <> "" ->
          exists v' db2,
            updateVariant
              (mkUpdateVariant (v_id v) sid None None None None (Some true))
              context env db
            = (inr (mkEnvelope true (Some (mkVariantData (Some v')))), db2)
            /\ v' = mkVariant (v_id v) (v_sessionId v) (v_tone v)
                      (v_complexity v) (v_variantLabel v) (v_content v)
                      true (v_createdAt v)
            /\ (forall env3,
                  listVariants (mkListVariantsRaw sid (Some true)) context env3 db2
                  = (inr (mkEnvelope true
                            (Some (mkItems (favorites sid db2)
                                     (length (favorites sid db2))))), db2))
            /\ (forall w, In w (favorites sid db2) <->
                          w = v' \/ (In w (favorites sid db) /\ v_id w <> v_id v))
            /\ ((forall w, In w (favorites sid db) -> v_id w = v_id v) ->
                favorites sid db2 = [v'])).
Proof.
  intros context u Hu favorites.
  assert (Hlist : forall d sid env,
             owns d (user_id u) sid -> sid <> "" ->
             listVariants (mkListVariantsRaw sid (Some true)) context env d
             = (inr (mkEnvelope true
                       (Some (mkItems (favorites sid d)
                                (length (favorites sid d))))), d)).
  { intros d sid env Hown Hsid.
    rewrite (listVariants_run context u env Hu _ d
               (accepted_listing sid (Some true) Hsid) Hown).
    reflexivity. }
  split; [exact Hlist|]. split.
  - intros db env sid tone complexity label content Hown Hsid Hcontent Hfresh.
    set (v := mkVariant (randomUUID env) sid (text_opt tone)
                (text_opt complexity) (text_opt label) (text content)
                false (now env)).
    set (db1 := mkDb (RephraseSessions db) (RephraseVariants db ++ [v])).
    assert (F1 : favorites sid db1 = favorites sid db).
    { unfold favorites. simpl. rewrite filter_app. simpl.
      rewrite andb_false_r. apply app_nil_r. }
    exists v, db1. repeat split.
    + rewrite (createVariant_run context u env Hu _ db); [|..].
      * unfold Query.insert. simpl.
        now rewrite (existsb_fresh _ _ Hfresh).
      * unfold accepts, createVariant_input. simpl.
        apply (min_1_ok "sessionId") in Hsid.
        apply (min_1_ok "content") in Hcontent.
        now rewrite Hsid, Hcontent.
      * exact Hown.
    + simpl. apply in_or_app. right. now left.
    + intros env1. rewrite <- F1. now apply Hlist.
    + intros Hin. apply filter_In in Hin. destruct Hin as [Hin _].
      now apply (Hfresh v Hin).
  - intros db env sid v Hk Hown Hsid Hv Hvsid Hvid.
    pose proof (keys_ok_variants db Hk) as Hd.
    set (i := mkUpdateVariant (v_id v) sid None None None None (Some true)).
    set (v' := mkVariant (v_id v) (v_sessionId v) (v_tone v) (v_complexity v)
                 (v_variantLabel v) (v_content v) true (v_createdAt v)).
    set (db2 := mkDb (RephraseSessions db)
                  (map (fun r => if v_id r =? v_id v then v' else r)
                     (RephraseVariants db))).
    assert (Hp' : (v_sessionId v' =? sid) && v_isFavorite v' = true)
      by (simpl; now rewrite Hvsid, String.eqb_refl).
    exists v', db2. split; [|split; [reflexivity|split; [|split]]].
    + assert (Hacc : accepts updateVariant_input i = true).
      { unfold accepts, updateVariant_input. simpl.
        apply (min_1_ok "sessionId") in Hsid. apply (min_1_ok "id") in Hvid.
        now rewrite Hsid, Hvid. }
      rewrite (updateVariant_run context u env Hu i db Hacc Hown).
      assert (Hin : In v (filter (fun w => (v_id w =? uv_id i)
                                           && (v_sessionId w =? uv_sessionId i))
                            (RephraseVariants db))).
      { apply filter_In. split; [assumption|]. simpl.
        now rewrite Hvsid, !String.eqb_refl. }
      destruct (filter _ _) as [|w rest]; [contradiction|].
      unfold eq_text. simpl uv_id.
      rewrite (select_by_key v_id _ v Hd Hv). simpl hd_error.
      rewrite (map_update_by_key v_id _ _ v Hd Hv). reflexivity.
    + intros env3. now apply Hlist.
    + intros w. unfold favorites. simpl. rewrite filter_In, in_map_iff. split.
      * intros [(x & Ex & Hx) Hw].
        destruct (String.eqb_spec (v_id x) (v_id v)) as [E|E].
        -- left. now symmetry.
        -- right. subst w. split; [|assumption].
           apply filter_In. now split.
      * intros [->|[Hw Hne]].
        -- split; [|exact Hp']. exists v. split; [|assumption].
           now rewrite String.eqb_refl.
        -- apply filter_In in Hw. destruct Hw as [Hw Hw'].
           split; [|assumption]. exists w. split; [|assumption].
           apply String.eqb_neq in Hne. now rewrite Hne.
    + intros Hothers. unfold favorites. simpl.
      apply (filter_map_single v_id); auto.
      intros w Hw Hne.
      destruct ((v_sessionId w =? sid) && v_isFavorite w) eqn:Ew; [|reflexivity].
      exfalso. apply Hne. apply Hothers. apply filter_In. now split.
Qed.

Lemma C9_favorites_witness :
  listVariants (mkListVariantsRaw "s1" (Some true))
    Sample.alice Sample.env1 Sample.db1
  = (inr (mkEnvelope true (Some (mkItems [Sample.v2] 1))), Sample.db1)
  /\ exists v' db2,
       updateVariant (mkUpdateVariant "v2" "s1" None None None None (Some true))
         Sample.alice Sample.env2 Sample.db1
       = (inr (mkEnvelope true (Some (mkVariantData (Some v')))), db2)
       /\ filter (fun w => (v_sessionId w =? "s1") && v_isFavorite w)
            (RephraseVariants db2) = [v'].
Proof.
  pose proof (C9_favorites_listing Sample.alice (mkUser "alice") eq_refl)
    as (Hlist & _ & Hmark).
  split.
  - apply (Hlist Sample.db1 "s1" Sample.env1).
    + exists Sample.s1. simpl. auto.
    + discriminate.
  - destruct (Hmark Sample.db1 Sample.env2 "s1" Sample.v2)
      as (v' & db2 & Hrun & _ & _ & _ & Hone).
    + reflexivity.
    + exists Sample.s1. simpl. auto.
    + discriminate.
    + simpl. auto.
    + reflexivity.
    + discriminate.
    + exists v', db2. split; [exact Hrun|]. apply Hone.
      simpl. intros w [<-|[]]. reflexivity.
Defined.

(** C9 as worded fails in a session that already has a favourite: session
    s1 holds the favourite v2; alice adds a variant there and marks it as
    favourite; the listing with favoritesOnly then returns two items, v2
    and the new variant, not the new variant alone. *)
Lemma C9_other_favorite_counterexample :
  fst (listVariants (mkListVariantsRaw "s1" (Some true))
         Sample.alice Sample.env3
         (exec_all
            [ (CreateVariant
                 (mkCreateVariant "s1" None None None "Variant A" None),
               Sample.alice, Sample.env1);
              (UpdateVariant
                 (mkUpdateVariant "id-1" "s1" None None None None (Some true)),
               Sample.alice, Sample.env2) ]
            Sample.db1))
  = inr (mkEnvelope true
           (Some (mkItems
                    [ Sample.v2;
                      mkVariant "id-1" "s1" None None None "Variant A" true 1000%Z ]
                    2))).
Proof. reflexivity. Qed.

(* ================================================================== *)
(** * The outcome of a call, case by case *)

Lemma accepts_false Raw In (input : Schema Raw In) raw :
  accepts input raw = false -> exists issues, input raw = inl issues.
Proof.
  unfold accepts. destruct (input raw) as [issues|v]; [|discriminate].
  intros _. now exists issues.
Qed.

Lemma filter_found {Row} (p : Row -> bool) (t : list Row) a rest :
  filter p t = a :: rest -> In a t /\ p a = true.
Proof.
  intros E. apply filter_In. rewrite E. now left.
Qed.

Lemma resolve_cases sessionId userId db :
  getOwnedSession sessionId userId db = (inl session_not_found, db)
  \/ owns db userId sessionId.
Proof.
  rewrite getOwnedSession_single_query.
  destruct (filter _ _) as [|r rest] eqn:E; [now left|right].
  apply filter_found in E. destruct E as [Hr Hp].
  apply andb_true_iff in Hp. destruct Hp as [H1 H2].
  exists r. repeat split; [assumption| |]; now apply String.eqb_eq.
Qed.

Lemma listSessions_run context u env i db :
  context_user context = Some u ->
  listSessions i context env db
  = (inr (reply (mkItems
                   (filter (fun s => s_userId s =? user_id u) (RephraseSessions db))
                   (length (filter (fun s => s_userId s =? user_id u)
                              (RephraseSessions db))))), db).
Proof.
  intros Hu. unfold listSessions, defineAction, listSessions_input.
  unfold listSessions_handler. now rewrite (as_user context u Hu).
Qed.

(** A call leaves the database as it was, or it succeeded for a signed-in
    caller and made the one change of its action. *)
Lemma run_cases c context env db :
  (exists o, run c context env db = (o, db))
  \/ (exists u db', context_user context = Some u
                    /\ run c context env db = (None, db')
                    /\ change c u env db db').
Proof.
  destruct (context_user context) as [u|] eqn:Hu.
  2:{ left. destruct (anonymous_call_fails context env Hu c db) as (f & E & _).
      now exists (Some f). }
  destruct c as [i|i| |i|i|i|i]; simpl.
  - (* createSession *)
    destruct (accepts createSession_input i) eqn:Hacc.
    + rewrite (createSession_run context u env Hu i db Hacc).
      unfold Query.insert. simpl.
      destruct (existsb _ _) eqn:E; simpl.
      * left. now eexists.
      * right. exists u. eexists. repeat split; try reflexivity; try assumption.
        unfold accepts, createSession_input in Hacc.
        apply accepts_parsed in Hacc. destruct Hacc as [Hmin _].
        now apply (min_1_ok "originalText").
    + left. destruct (accepts_false _ _ _ _ Hacc) as [issues E]. unfold createSession.
      rewrite (defineAction_rejected _ _ _ _ _ _ _ _ _ db E). now eexists.
  - (* updateSession *)
    destruct (accepts updateSession_input i) eqn:Hacc.
    + destruct (resolve_cases (us_id i) (user_id u) db) as [Hg|Hown].
      * left. destruct (resolver_decides context u env Hu _ db _ Hg) as (H & _).
        rewrite (H i eq_refl Hacc). now eexists.
      * right. rewrite (updateSession_run context u env Hu i db Hacc Hown).
        exists u. eexists. repeat split; try reflexivity; assumption.
    + left. destruct (accepts_false _ _ _ _ Hacc) as [issues E]. unfold updateSession.
      rewrite (defineAction_rejected _ _ _ _ _ _ _ _ _ db E). now eexists.
  - (* listSessions *)
    left. rewrite (listSessions_run context u env tt db Hu). now eexists.
  - (* createVariant *)
    destruct (accepts createVariant_input i) eqn:Hacc.
    + destruct (resolve_cases (cv_sessionId i) (user_id u) db) as [Hg|Hown].
      * left. destruct (resolver_decides context u env Hu _ db _ Hg) as (_ & H & _).
        rewrite (H i eq_refl Hacc). now eexists.
      * rewrite (createVariant_run context u env Hu i db Hacc Hown).
        unfold Query.insert. simpl.
        destruct (existsb _ _) eqn:E; simpl.
        -- left. now eexists.
        -- right. exists u. eexists.
           repeat split; try reflexivity; try assumption.
           unfold accepts, createVariant_input in Hacc.
           apply accepts_parsed in Hacc. destruct Hacc as [Hmin _].
           apply app_eq_nil in Hmin. destruct Hmin as [_ Hmin].
           now apply (min_1_ok "content").
    + left. destruct (accepts_false _ _ _ _ Hacc) as [issues E]. unfold createVariant.
      rewrite (defineAction_rejected _ _ _ _ _ _ _ _ _ db E). now eexists.
  - (* updateVariant *)
    destruct (accepts updateVariant_input i) eqn:Hacc.
    + destruct (resolve_cases (uv_sessionId i) (user_id u) db) as [Hg|Hown].
      * left. destruct (resolver_decides context u env Hu _ db _ Hg) as (_ & _ & H & _).
        rewrite (H i eq_refl Hacc). now eexists.
      * rewrite (updateVariant_run context u env Hu i db Hacc Hown).
        destruct (filter _ _) as [|w rest] eqn:E; simpl.
        -- left. now eexists.
        -- right. exists u. eexists. split; [reflexivity|]. split; [reflexivity|].
           split; [assumption|]. split; [|reflexivity].
           apply filter_found in E. destruct E as [Hw Hp].
           apply andb_true_iff in Hp. destruct Hp as [H1 H2].
           exists w. repeat split; [assumption| |]; now apply String.eqb_eq.
    + left. destruct (accepts_false _ _ _ _ Hacc) as [issues E]. unfold updateVariant.
      rewrite (defineAction_rejected _ _ _ _ _ _ _ _ _ db E). now eexists.
  - (* deleteVariant *)
    destruct (accepts deleteVariant_input i) eqn:Hacc.
    + destruct (resolve_cases (dv_sessionId i) (user_id u) db) as [Hg|Hown].
      * left. destruct (resolver_decides context u env Hu _ db _ Hg)
          as (_ & _ & _ & H & _).
        rewrite (H i eq_refl Hacc). now eexists.
      * rewrite (deleteVariant_run context u env Hu i db Hacc Hown).
        destruct (filter (fun v => (v_id v =? dv_id i)
                                   && (v_sessionId v =? dv_sessionId i))
                    (RephraseVariants db)) as [|w rest] eqn:E; simpl.
        -- left. rewrite filter_all.
           ++ rewrite db_eta. now eexists.
           ++ intros v Hv. apply negb_true_iff.
              destruct ((v_id v =? dv_id i) && (v_sessionId v =? dv_sessionId i))
                eqn:Ev; [|reflexivity].
              assert (Hin : In v (filter (fun v => (v_id v =? dv_id i)
                                   && (v_sessionId v =? dv_sessionId i))
                                    (RephraseVariants db)))
                by (apply filter_In; now split).
              rewrite E in Hin. contradiction.
        -- right. exists u. eexists. split; [reflexivity|]. split; [reflexivity|].
           split; [assumption|]. split; [|reflexivity].
           apply filter_found in E. destruct E as [Hw Hp].
           apply andb_true_iff in Hp. destruct Hp as [H1 H2].
           exists w. repeat split; [assumption| |]; now apply String.eqb_eq.
    + left. destruct (accepts_false _ _ _ _ Hacc) as [issues E]. unfold deleteVariant.
      rewrite (defineAction_rejected _ _ _ _ _ _ _ _ _ db E). now eexists.
  - (* listVariants *)
    left. destruct (accepts listVariants_input i) eqn:Hacc.
    + destruct (resolve_cases (lr_sessionId i) (user_id u) db) as [Hg|Hown].
      * destruct (resolver_decides context u env Hu _ db _ Hg)
          as (_ & _ & _ & _ & H).
        rewrite (H i eq_refl Hacc). now eexists.
      * rewrite (listVariants_run context u env Hu i db Hacc Hown). now eexists.
    + destruct (accepts_false _ _ _ _ Hacc) as [issues E]. unfold listVariants.
      rewrite (defineAction_rejected _ _ _ _ _ _ _ _ _ db E). now eexists.
Qed.

(* ================================================================== *)
(** * Further properties of the actions *)

(** X1.  A call that fails has changed nothing: whatever the action, the
    caller and the input, a failure comes with the database as it was before
    the call (the delete statement that affects no row included). *)
Theorem X1_failed_call_changes_nothing :
  forall c context env db f db',
    run c context env db = (Some f, db') -> db' = db.
Proof.
  intros c context env db f db' Hrun.
  destruct (run_cases c context env db) as [[o E]|(u & d & _ & E & _)];
    rewrite E in Hrun; [|discriminate].
  now injection Hrun.
Qed.

Lemma X1_failed_call_witness :
  Sample.db1 = Sample.db1.
Proof.
  symmetry.
  apply (X1_failed_call_changes_nothing
           (DeleteVariant (mkDeleteVariant "v9" "s1")) Sample.alice Sample.env1
           Sample.db1 (ActionError NOT_FOUND "Rephrase variant not found.")
           Sample.db1).
  reflexivity.
Defined.

(** X2.  The two listings only read: listSessions and listVariants return
    the database they were given, for every input and every caller, signed in
    or not, owner or not. *)
Theorem X2_listings_only_read :
  forall context env db,
    (forall i, snd (listSessions i context env db) = db)
    /\ (forall i, snd (listVariants i context env db) = db).
Proof.
  intros context env db. split; intros i.
  - destruct (run_cases ListSessions context env db)
      as [[o E]|(u & d & _ & _ & [])].
    unfold run in E. destruct i.
    rewrite <- (snd_outcome _ (listSessions tt context env db)). now rewrite E.
  - destruct (run_cases (ListVariants i) context env db)
      as [[o E]|(u & d & _ & _ & [])].
    unfold run in E.
    rewrite <- (snd_outcome _ (listVariants i context env db)). now rewrite E.
Qed.

(** X3.  listSessions, for a signed-in caller, always succeeds; its items
    are exactly the stored sessions whose userId is the caller's id, in table
    order (no session of another user, none of the caller's missing), and
    total is the number of items. *)
Theorem X3_listSessions_is_the_callers_sessions :
  forall context u env db,
    context_user context = Some u ->
    exists rows,
      listSessions tt context env db
      = (inr (mkEnvelope true (Some (mkItems rows (length rows)))), db)
      /\ rows = filter (fun s => s_userId s =? user_id u) (RephraseSessions db)
      /\ (forall s, In s rows <->
                    In s (RephraseSessions db) /\ s_userId s = user_id u).
Proof.
  intros context u env db Hu. eexists. split; [|split; [reflexivity|]].
  - now rewrite (listSessions_run context u env tt db Hu).
  - intros s. rewrite filter_In. now rewrite String.eqb_eq.
Qed.

Lemma X3_listSessions_witness :
  exists rows,
    listSessions tt Sample.alice Sample.env1 Sample.db1
    = (inr (mkEnvelope true (Some (mkItems rows (length rows)))), Sample.db1)
    /\ rows = [Sample.s1; Sample.s2].
Proof.
  destruct (X3_listSessions_is_the_callers_sessions Sample.alice
              (mkUser "alice") Sample.env1 Sample.db1 eq_refl)
    as (rows & Hrun & Hrows & _).
  exists rows. split; [exact Hrun|exact Hrows].
Defined.

(** X4.  What getOwnedSession returns is a stored session that has the id
    asked for and the caller as its owner, and the database is untouched;
    with distinct ids it is the only stored session under that id. *)
Theorem X4_getOwnedSession_returns_the_owned_row :
  forall sessionId userId db S db',
    getOwnedSession sessionId userId db = (inr S, db') ->
    db' = db
    /\ In S (RephraseSessions db)
    /\ s_id S = sessionId
    /\ s_userId S = userId
    /\ (keys_ok db = true ->
        forall S', In S' (RephraseSessions db) -> s_id S' = sessionId -> S' = S).
Proof.
  intros sessionId userId db S db' H.
  rewrite getOwnedSession_single_query in H.
  destruct (filter _ _) as [|r rest] eqn:E; [discriminate|].
  injection H as <- <-.
  apply filter_found in E. destruct E as [Hr Hp].
  apply andb_true_iff in Hp. destruct Hp as [H1 H2].
  apply String.eqb_eq in H1. apply String.eqb_eq in H2.
  repeat split; try assumption.
  intros Hk S' HS' Hid.
  apply (key_unique s_id (RephraseSessions db)); auto using keys_ok_sessions.
  congruence.
Qed.

Lemma X4_getOwnedSession_witness :
  s_id Sample.s2 = "s2" /\ s_userId Sample.s2 = "alice".
Proof.
  destruct (X4_getOwnedSession_returns_the_owned_row "s2" "alice" Sample.db1
              Sample.s2 Sample.db1 eq_refl) as (_ & _ & H1 & H2 & _).
  split; [exact H1|exact H2].
Defined.

(** A call that succeeds was made by a signed-in user, on an input the
    schema accepts, and that user owns the session named, if one is. *)
Lemma success_inv c context env db db' :
  run c context env db = (None, db') ->
  exists u,
    context_user context = Some u
    /\ accepted c = true
    /\ match resolved c with
       | Some sessionId => owns db (user_id u) sessionId
       | None => True
       end.
Proof.
  intros Hrun.
  destruct (context_user context) as [u|] eqn:Hu.
  2:{ destruct (anonymous_call_fails context env Hu c db) as (f & E & _).
      rewrite E in Hrun. discriminate. }
  exists u. split; [reflexivity|].
  assert (Hacc : accepted c = true).
  { destruct (accepted c) eqn:Hacc; [reflexivity|exfalso].
    destruct c as [i|i| |i|i|i|i]; simpl in *;
      try discriminate Hacc;
      destruct (accepts_false _ _ _ _ Hacc) as [issues E];
      unfold createSession, updateSession, createVariant, updateVariant,
        deleteVariant, listVariants in Hrun;
      rewrite (defineAction_rejected _ _ _ _ _ _ _ _ _ db E) in Hrun;
      discriminate. }
  split; [assumption|].
  destruct c as [i|i| |i|i|i|i]; simpl in *; try exact I.
  - destruct (resolve_cases (us_id i) (user_id u) db) as [Hg|Hown]; [|assumption].
    destruct (resolver_decides context u env Hu _ db _ Hg) as (H & _).
    rewrite (H i eq_refl Hacc) in Hrun. discriminate.
  - destruct (resolve_cases (cv_sessionId i) (user_id u) db) as [Hg|Hown]; [|assumption].
    destruct (resolver_decides context u env Hu _ db _ Hg) as (_ & H & _).
    rewrite (H i eq_refl Hacc) in Hrun. discriminate.
  - destruct (resolve_cases (uv_sessionId i) (user_id u) db) as [Hg|Hown]; [|assumption].
    destruct (resolver_decides context u env Hu _ db _ Hg) as (_ & _ & H & _).
    rewrite (H i eq_refl Hacc) in Hrun. discriminate.
  - destruct (resolve_cases (dv_sessionId i) (user_id u) db) as [Hg|Hown]; [|assumption].
    destruct (resolver_decides context u env Hu _ db _ Hg) as (_ & _ & _ & H & _).
    rewrite (H i eq_refl Hacc) in Hrun. discriminate.
  - destruct (resolve_cases (lr_sessionId i) (user_id u) db) as [Hg|Hown]; [|assumption].
    destruct (resolver_decides context u env Hu _ db _ Hg) as (_ & _ & _ & _ & H).
    rewrite (H i eq_refl Hacc) in Hrun. discriminate.
Qed.

(** X5.  No action succeeds without a signed-in user, and none of the five
    actions that name a session (updateSession, createVariant, updateVariant,
    deleteVariant, listVariants) succeeds unless that user owns a stored
    session under the id named. *)
Theorem X5_success_needs_the_owner :
  forall c context env db db',
    run c context env db = (None, db') ->
    exists u,
      context_user context = Some u
      /\ match resolved c with
         | Some sessionId => owns db (user_id u) sessionId
         | None => True
         end.
Proof.
  intros c context env db db' Hrun.
  destruct (success_inv c context env db db' Hrun) as (u & Hu & _ & Hown).
  now exists u.
Qed.

Lemma X5_success_witness :
  exists u, context_user Sample.alice = Some u /\ owns Sample.db1 (user_id u) "s1".
Proof.
  exact (X5_success_needs_the_owner
           (ListVariants (mkListVariantsRaw "s1" None)) Sample.alice Sample.env1
           Sample.db1 Sample.db1 eq_refl).
Defined.

Lemma existsb_fresh_sessions (k : string) (t : list RephraseSession) :
  existsb (fun r' => s_id r' =? k) t = false ->
  forall s, In s t -> (s_id s =? k) = false.
Proof.
  intros H s Hs. rewrite existsb_key_insert in H.
  now apply (existsb_key_false s_id k t).
Qed.

(** X6.  A session just created is there for its owner and for nobody
    else.  After a successful createSession by [u] (returning the record
    [S]), listSessions by [u] gives what it gave before followed by [S];
    getOwnedSession on the new id finds [S] for [u] and fails for any other
    user; listSessions by another user gives what it gave before. *)
Theorem X6_created_session_is_listed_and_owned :
  forall context u env db i S db',
    context_user context = Some u ->
    createSession i context env db
    = (inr (mkEnvelope true (Some (mkSessionData (Some S)))), db') ->
    let mine d :=
      filter (fun s => s_userId s =? user_id u) (RephraseSessions d) in
    (forall env', listSessions tt context env' db'
                  = (inr (mkEnvelope true
                            (Some (mkItems (mine db ++ [S])
                                     (length (mine db ++ [S]))))), db'))
    /\ getOwnedSession (s_id S) (user_id u) db' = (inr S, db')
    /\ (forall other, other <> user_id u ->
          getOwnedSession (s_id S) other db' = (inl session_not_found, db')
          /\ filter (fun s => s_userId s =? other) (RephraseSessions db')
             = filter (fun s => s_userId s =? other) (RephraseSessions db)).
Proof.
  intros context u env db i S db' Hu Hrun mine.
  destruct (accepts createSession_input i) eqn:Hacc.
  2:{ destruct (accepts_false _ _ _ _ Hacc) as [issues E]. unfold createSession in Hrun.
      rewrite (defineAction_rejected _ _ _ _ _ _ _ _ _ db E) in Hrun. discriminate. }
  rewrite (createSession_run context u env Hu i db Hacc) in Hrun.
  unfold Query.insert in Hrun.
  destruct (existsb _ _) eqn:E; [discriminate|].
  simpl in Hrun. injection Hrun as <- <-.
  pose proof (existsb_fresh_sessions _ _ E) as Hfresh. simpl in Hfresh.
  split; [|split].
  - intros env'. rewrite (listSessions_run context u env' tt _ Hu).
    simpl. rewrite filter_app. simpl. now rewrite String.eqb_refl.
  - rewrite getOwnedSession_single_query. simpl.
    rewrite filter_app. simpl. rewrite !String.eqb_refl. simpl.
    rewrite filter_none; [reflexivity|].
    intros s Hs. now rewrite (Hfresh s Hs).
  - intros other Hother. split.
    + apply getOwnedSession_missing. simpl. intros s Hs Hid.
      apply in_app_or in Hs. destruct Hs as [Hs|[<-|[]]].
      * apply String.eqb_eq in Hid. rewrite (Hfresh s Hs) in Hid. discriminate.
      * simpl. congruence.
    + simpl. rewrite filter_app. simpl.
      assert (Hne : (user_id u =? other) = false)
        by (apply String.eqb_neq; congruence).
      rewrite Hne. apply app_nil_r.
Qed.

Lemma X6_created_session_witness :
  getOwnedSession "id-1" "alice"
    (mkDb (RephraseSessions Sample.db1
           ++ [mkSession "id-1" "alice" None None "Hello world" 1000%Z 1000%Z])
       (RephraseVariants Sample.db1))
  = (inr (mkSession "id-1" "alice" None None "Hello world" 1000%Z 1000%Z),
     mkDb (RephraseSessions Sample.db1
           ++ [mkSession "id-1" "alice" None None "Hello world" 1000%Z 1000%Z])
       (RephraseVariants Sample.db1)).
Proof.
  exact (proj1 (proj2
           (X6_created_session_is_listed_and_owned Sample.alice (mkUser "alice")
              Sample.env1 Sample.db1 (mkCreateSession None None "Hello world")
              (mkSession "id-1" "alice" None None "Hello world" 1000%Z 1000%Z)
              _ eq_refl eq_refl))).
Defined.

(** X7.  listVariants without favoritesOnly is listVariants with
    favoritesOnly false; for a signed-in owner of the session (non-empty id)
    it succeeds with exactly the stored variants whose sessionId is that
    session, in table order, total being their number; and whatever the
    listing with favoritesOnly true returns is among them. *)
Theorem X7_listVariants_all_of_the_session :
  forall context u env db sessionId,
    context_user context = Some u ->
    owns db (user_id u) sessionId ->
    sessionId <> "" ->
    exists rows favorites,
      listVariants (mkListVariantsRaw sessionId None) context env db
      = (inr (mkEnvelope true (Some (mkItems rows (length rows)))), db)
      /\ listVariants (mkListVariantsRaw sessionId (Some false)) context env db
         = listVariants (mkListVariantsRaw sessionId None) context env db
      /\ (forall v, In v rows <->
                    In v (RephraseVariants db) /\ v_sessionId v = sessionId)
      /\ listVariants (mkListVariantsRaw sessionId (Some true)) context env db
         = (inr (mkEnvelope true (Some (mkItems favorites (length favorites)))), db)
      /\ (forall v, In v favorites <-> In v rows /\ v_isFavorite v = true).
Proof.
  intros context u env db sessionId Hu Hown Hsid.
  rewrite !(listVariants_run context u env Hu _ db
              (accepted_listing sessionId _ Hsid) Hown).
  simpl. eexists. eexists. split; [reflexivity|]. split; [reflexivity|].
  split; [|split; [reflexivity|]].
  - intros v. rewrite filter_In, andb_true_r. now rewrite String.eqb_eq.
  - intros v. rewrite !filter_In, andb_true_r, andb_true_iff.
    rewrite String.eqb_eq. tauto.
Qed.

Lemma X7_listVariants_witness :
  exists rows,
    listVariants (mkListVariantsRaw "s1" None) Sample.alice Sample.env1 Sample.db1
    = (inr (mkEnvelope true (Some (mkItems rows (length rows)))), Sample.db1)
    /\ (In Sample.v1 rows /\ In Sample.v2 rows).
Proof.
  destruct (X7_listVariants_all_of_the_session Sample.alice (mkUser "alice")
              Sample.env1 Sample.db1 "s1" eq_refl
              (ex_intro _ Sample.s1
                 (conj (or_introl eq_refl) (conj eq_refl eq_refl)))
              ltac:(discriminate))
    as (rows & favorites & Hrun & _ & Hrows & _).
  exists rows. split; [exact Hrun|].
  split; apply Hrows; simpl; auto.
Defined.

(** X8.  createVariant by a signed-in owner of the session, with non-empty
    sessionId and content and a generated id no stored variant has, succeeds:
    the record returned and appended to the table has that id, the session
    id of the input, its tone, complexity, variantLabel and content each up
    to its first U+0000 (the value itself when it holds none), the
    isFavorite supplied (false when omitted) and the current instant as
    createdAt.  Sessions are untouched.  The variant is then in the full
    listing of its session, and in the favourites listing exactly when
    isFavorite was supplied as true. *)
Theorem X8_createVariant_record :
  forall context u env db i,
    context_user context = Some u ->
    accepts createVariant_input i = true ->
    owns db (user_id u) (cv_sessionId i) ->
    (forall w, In w (RephraseVariants db) -> v_id w <> randomUUID env) ->
    exists v db',
      createVariant i context env db
      = (inr (mkEnvelope true (Some (mkVariantData (Some v)))), db')
      /\ v = mkVariant (randomUUID env) (cv_sessionId i) (text_opt (cv_tone i))
               (text_opt (cv_complexity i)) (text_opt (cv_variantLabel i))
               (text (cv_content i))
               (match cv_isFavorite i with Some b => b | None => false end)
               (now env)
      /\ (nul_free (cv_content i) = true -> v_content v = cv_content i)
      /\ RephraseVariants db' = RephraseVariants db ++ [v]
      /\ RephraseSessions db' = RephraseSessions db
      /\ (forall env' rows,
            listVariants (mkListVariantsRaw (cv_sessionId i) None) context env' db'
            = (inr (mkEnvelope true (Some (mkItems rows (length rows)))), db') ->
            In v rows)
      /\ (forall env' rows,
            listVariants (mkListVariantsRaw (cv_sessionId i) (Some true))
              context env' db'
            = (inr (mkEnvelope true (Some (mkItems rows (length rows)))), db') ->
            (In v rows <-> cv_isFavorite i = Some true)).
Proof.
  intros context u env db i Hu Hacc Hown Hfresh.
  assert (Hsid : cv_sessionId i <> "").
  { unfold accepts, createVariant_input in Hacc.
    apply accepts_parsed in Hacc. destruct Hacc as [Hmin _].
    apply app_eq_nil in Hmin. destruct Hmin as [Hmin _].
    now apply (min_1_ok "sessionId"). }
  rewrite (createVariant_run context u env Hu i db Hacc Hown).
  unfold Query.insert. simpl. rewrite (existsb_fresh _ _ Hfresh).
  eexists. eexists. split; [reflexivity|]. split; [reflexivity|].
  split; [simpl; apply text_nul_free|].
  split; [reflexivity|]. split; [reflexivity|].
  set (v := mkVariant _ _ _ _ _ _ _ _).
  set (db' := mkDb _ _).
  assert (Hown' : owns db' (user_id u) (cv_sessionId i)) by exact Hown.
  split; intros env' rows;
    rewrite (listVariants_run context u env' Hu _ db'
               (accepted_listing (cv_sessionId i) _ Hsid) Hown');
    simpl; intros E; injection E as <-.
  - apply filter_In. split.
    + apply in_or_app. right. now left.
    + simpl. now rewrite String.eqb_refl.
  - rewrite filter_In. simpl. rewrite String.eqb_refl. simpl. split.
    + intros [_ Hf]. destruct (cv_isFavorite i) as [[|]|]; congruence.
    + intros ->. split; [|reflexivity]. apply in_or_app. right. now left.
Qed.

Lemma X8_createVariant_witness :
  exists v db',
    createVariant (mkCreateVariant "s2" (Some "formal") None None "Variant C"
                     (Some true))
      Sample.alice Sample.env1 Sample.db1
    = (inr (mkEnvelope true (Some (mkVariantData (Some v)))), db')
    /\ v = mkVariant "id-1" "s2" (Some "formal") None None "Variant C" true 1000%Z.
Proof.
  destruct (X8_createVariant_record Sample.alice (mkUser "alice") Sample.env1
              Sample.db1
              (mkCreateVariant "s2" (Some "formal") None None "Variant C"
                 (Some true))
              eq_refl eq_refl
              (ex_intro _ Sample.s2
                 (conj (or_intror (or_introl eq_refl)) (conj eq_refl eq_refl))))
    as (v & db' & Hrun & Hv & _).
  - simpl. intros w [<-|[<-|[]]]; discriminate.
  - exists v, db'. split; [exact Hrun|exact Hv].
Defined.

(** X9.  updateVariant by a signed-in owner, on an accepted input that
    names a stored variant [v] of the session named (ids distinct),
    succeeds and returns the updated record: each of tone, complexity,
    variantLabel and content is the value supplied up to its first U+0000
    (the value itself when it holds none), isFavorite is the value
    supplied, and each is that of [v] when none is supplied.  In the table that record stands where [v]
    stood; every other variant and every session is as before. *)
Theorem X9_updateVariant_overwrites_supplied_fields :
  forall db context u env i v,
    keys_ok db = true ->
    context_user context = Some u ->
    accepts updateVariant_input i = true ->
    owns db (user_id u) (uv_sessionId i) ->
    In v (RephraseVariants db) ->
    v_id v = uv_id i ->
    v_sessionId v = uv_sessionId i ->
    exists v' db',
      updateVariant i context env db
      = (inr (mkEnvelope true (Some (mkVariantData (Some v')))), db')
      /\ v_tone v'
         = match uv_tone i with Some x => Some (text x) | None => v_tone v end
      /\ v_complexity v'
         = match uv_complexity i with
           | Some x => Some (text x) | None => v_complexity v end
      /\ v_variantLabel v'
         = match uv_variantLabel i with
           | Some x => Some (text x) | None => v_variantLabel v end
      /\ v_content v'
         = match uv_content i with Some x => text x | None => v_content v end
      /\ (forall x, nul_free x = true -> text x = x)
      /\ v_isFavorite v'
         = match uv_isFavorite i with Some x => x | None => v_isFavorite v end
      /\ RephraseVariants db'
         = map (fun r => if v_id r =? v_id v then v' else r) (RephraseVariants db)
      /\ (forall w, In w (RephraseVariants db) -> v_id w <> v_id v ->
                    In w (RephraseVariants db'))
      /\ RephraseSessions db' = RephraseSessions db.
Proof.
  intros db context u env i v Hk Hu Hacc Hown Hv Hid Hsid.
  pose proof (keys_ok_variants db Hk) as Hd.
  exists (updateVariant_set i v). eexists. split.
  - rewrite (updateVariant_run context u env Hu i db Hacc Hown).
    assert (Hin : In v (filter (fun v => (v_id v =? uv_id i)
                                         && (v_sessionId v =? uv_sessionId i))
                          (RephraseVariants db))).
    { apply filter_In. split; [assumption|].
      now rewrite Hid, Hsid, !String.eqb_refl. }
    destruct (filter _ _) as [|w rest]; [contradiction|].
    unfold eq_text. rewrite <- Hid.
    rewrite (select_by_key v_id _ v Hd Hv). simpl hd_error.
    rewrite (map_update_by_key v_id _ _ v Hd Hv). reflexivity.
  - split; [simpl; now destruct (uv_tone i)|].
    split; [simpl; now destruct (uv_complexity i)|].
    split; [simpl; now destruct (uv_variantLabel i)|].
    split; [simpl; now destruct (uv_content i)|].
    split; [exact text_nul_free|].
    repeat split; try reflexivity.
    simpl. intros w Hw Hne. apply in_map_iff. exists w. split; [|assumption].
    apply String.eqb_neq in Hne. now rewrite Hne.
Qed.

Lemma X9_updateVariant_witness :
  exists v' db',
    updateVariant (mkUpdateVariant "v1" "s1" (Some "simple") None None None None)
      Sample.alice Sample.env1 Sample.db1
    = (inr (mkEnvelope true (Some (mkVariantData (Some v')))), db')
    /\ v_tone v' = Some "simple"
    /\ v_content v' = "Variant A".
Proof.
  destruct (X9_updateVariant_overwrites_supplied_fields Sample.db1 Sample.alice
              (mkUser "alice") Sample.env1
              (mkUpdateVariant "v1" "s1" (Some "simple") None None None None)
              Sample.v1 eq_refl eq_refl eq_refl
              (ex_intro _ Sample.s1
                 (conj (or_introl eq_refl) (conj eq_refl eq_refl)))
              (or_introl eq_refl) eq_refl eq_refl)
    as (v' & db' & Hrun & Ht & _ & _ & Hc & _).
  exists v', db'. split; [exact Hrun|]. split; [exact Ht|exact Hc].
Defined.

Lemma updateVariant_set_twice i r :
  updateVariant_set i (updateVariant_set i r) = updateVariant_set i r.
Proof.
  unfold updateVariant_set, supplied, supplied_opt. simpl.
  destruct (uv_tone i), (uv_complexity i), (uv_variantLabel i),
    (uv_content i), (uv_isFavorite i); reflexivity.
Qed.

(** X10.  updateVariant is idempotent on the database: the same call made
    a second time (same caller, at whatever later instant) leaves the
    database the first call produced, whether the first call succeeded or
    failed. *)
Theorem X10_updateVariant_twice_is_once :
  forall i context env env' db,
    exec (UpdateVariant i) context env'
      (exec (UpdateVariant i) context env db)
    = exec (UpdateVariant i) context env db.
Proof.
  intros i context env env' db.
  assert (Henv : forall d, exec (UpdateVariant i) context env' d
                           = exec (UpdateVariant i) context env d)
    by reflexivity.
  rewrite Henv.
  assert (Hexec : forall d o d', run (UpdateVariant i) context env d = (o, d') ->
                                 exec (UpdateVariant i) context env d = d')
    by (intros d o d' E; unfold exec; now rewrite E).
  destruct (run_cases (UpdateVariant i) context env db)
    as [[o E]|(u & d & _ & E & (_ & _ & Hd))];
    rewrite (Hexec _ _ _ E).
  - apply (Hexec _ _ _ E).
  - destruct (run_cases (UpdateVariant i) context env d)
      as [[o' E']|(u' & d' & _ & E' & (_ & _ & Hd'))];
      rewrite (Hexec _ _ _ E'); [reflexivity|].
    rewrite Hd', Hd. simpl. f_equal.
    rewrite map_map. apply map_ext. intros r.
    destruct (v_id r =? uv_id i) eqn:Er; simpl.
    + rewrite Er. apply updateVariant_set_twice.
    + now rewrite Er.
Qed.

Lemma exec_of_run c context env db o db' :
  run c context env db = (o, db') -> exec c context env db = db'.
Proof. intros E. unfold exec. now rewrite E. Qed.

Lemma filter_by_key_length {Row} (key : Row -> string) (t : list Row) (r : Row) :
  distinct (map key t) = true -> In r t ->
  length t = S (length (filter (fun x => negb (key x =? key r)) t)).
Proof.
  intros Hd Hr.
  rewrite <- (filter_length (fun x => key x =? key r) t).
  now rewrite (select_by_key key t r Hd Hr).
Qed.

(** X11.  A deleteVariant that succeeds (ids distinct) removes one row and
    only that one: the new table is the old one without the row stored under
    the id given, in the same order, one row shorter; sessions are as
    before. *)
Theorem X11_deleteVariant_removes_one_row :
  forall i context env db db',
    keys_ok db = true ->
    run (DeleteVariant i) context env db = (None, db') ->
    RephraseVariants db'
    = filter (fun v => negb (v_id v =? dv_id i)) (RephraseVariants db)
    /\ length (RephraseVariants db) = S (length (RephraseVariants db'))
    /\ (forall w, In w (RephraseVariants db) -> v_id w <> dv_id i ->
                  In w (RephraseVariants db'))
    /\ RephraseSessions db' = RephraseSessions db.
Proof.
  intros i context env db db' Hk Hrun.
  pose proof (keys_ok_variants db Hk) as Hd.
  destruct (success_inv _ _ _ _ _ Hrun) as (u & Hu & Hacc & Hown).
  simpl in Hacc, Hown, Hrun.
  rewrite (deleteVariant_run context u env Hu i db Hacc Hown) in Hrun.
  destruct (filter (fun v => (v_id v =? dv_id i)
                             && (v_sessionId v =? dv_sessionId i))
              (RephraseVariants db)) as [|w rest] eqn:E;
    simpl in Hrun; [discriminate|].
  injection Hrun as <-. simpl.
  apply filter_found in E. destruct E as [Hw Hp].
  apply andb_true_iff in Hp. destruct Hp as [H1 H2].
  apply String.eqb_eq in H1. apply String.eqb_eq in H2.
  assert (Hsame : filter (fun v => negb ((v_id v =? dv_id i)
                                         && (v_sessionId v =? dv_sessionId i)))
                    (RephraseVariants db)
                  = filter (fun v => negb (v_id v =? dv_id i))
                      (RephraseVariants db)).
  { apply filter_ext_in. intros v Hv.
    destruct (String.eqb_spec (v_id v) (dv_id i)) as [Ev|]; [|reflexivity].
    assert (v = w) as ->
        by (apply (key_unique v_id (RephraseVariants db)); auto; congruence).
    now rewrite H2, String.eqb_refl. }
  rewrite Hsame. repeat split.
  - rewrite <- H1. now apply filter_by_key_length.
  - intros x Hx Hne. apply filter_In. split; [assumption|].
    apply negb_true_iff. now apply String.eqb_neq.
Qed.

Lemma X11_deleteVariant_witness :
  RephraseVariants (mkDb [Sample.s1; Sample.s2] [Sample.v2])
  = filter (fun v => negb (v_id v =? "v1")) (RephraseVariants Sample.db1).
Proof.
  exact (proj1 (X11_deleteVariant_removes_one_row (mkDeleteVariant "v1" "s1")
                  Sample.alice Sample.env1 Sample.db1
                  (mkDb [Sample.s1; Sample.s2] [Sample.v2]) eq_refl eq_refl)).
Defined.

(** X12.  A call never touches what belongs to somebody else.  Whatever the
    action, the input and the outcome (ids distinct): every stored session
    whose owner is not the caller is still stored, unchanged, after the call,
    and so is every stored variant of a session the caller does not own.  A
    call without a signed-in user touches nothing at all. *)
Theorem X12_other_users_rows_are_untouched :
  forall c context env db,
    keys_ok db = true ->
    (forall s, In s (RephraseSessions db) ->
               (forall u, context_user context = Some u ->
                          s_userId s <> user_id u) ->
               In s (RephraseSessions (exec c context env db)))
    /\ (forall v, In v (RephraseVariants db) ->
                  (forall u, context_user context = Some u ->
                             ~ owns db (user_id u) (v_sessionId v)) ->
                  In v (RephraseVariants (exec c context env db)))
    /\ (context_user context = None -> exec c context env db = db).
Proof.
  intros c context env db Hk.
  pose proof (keys_ok_sessions db Hk) as Hds.
  pose proof (keys_ok_variants db Hk) as Hdv.
  destruct (run_cases c context env db) as [[o E]|(u & d & Hu & E & Hc)];
    rewrite (exec_of_run _ _ _ _ _ _ E).
  { repeat split; auto. }
  split; [|split].
  - intros s Hs Hother. specialize (Hother u Hu).
    destruct c as [i|i| |i|i|i|i]; simpl in Hc;
      try contradiction;
      try (destruct Hc as (_ & _ & ->));
      try (destruct Hc as (_ & _ & _ & ->)); simpl; auto.
    + apply in_or_app. now left.
    + destruct Hc as ((S & HS & Hid & Hown) & ->). simpl.
      apply in_map_iff. exists s. split; [|assumption].
      destruct (String.eqb_spec (s_id s) (us_id i)) as [Es|]; [|reflexivity].
      exfalso. apply Hother.
      rewrite (key_unique s_id _ S s Hds HS Hs); congruence.
  - intros v Hv Hother. specialize (Hother u Hu).
    destruct c as [i|i| |i|i|i|i]; simpl in Hc; try contradiction.
    + destruct Hc as (_ & _ & ->). assumption.
    + destruct Hc as (_ & ->). assumption.
    + destruct Hc as (_ & _ & _ & ->). simpl. apply in_or_app. now left.
    + destruct Hc as (Hown & (w & Hw & Hwid & Hwsid) & ->). simpl.
      apply in_map_iff. exists v. split; [|assumption].
      destruct (String.eqb_spec (v_id v) (uv_id i)) as [Ev|]; [|reflexivity].
      exfalso. apply Hother.
      rewrite (key_unique v_id _ w v Hdv Hw Hv) by congruence.
      now rewrite Hwsid.
    + destruct Hc as (Hown & _ & ->). simpl.
      apply filter_In. split; [assumption|]. apply negb_true_iff.
      destruct (String.eqb_spec (v_sessionId v) (dv_sessionId i)) as [Ev|].
      * exfalso. apply Hother. now rewrite Ev.
      * apply andb_false_r.
  - intros Hnone. rewrite Hnone in Hu. discriminate.
Qed.

Lemma X12_other_users_witness :
  In Sample.s1
    (RephraseSessions
       (exec (UpdateSession (mkUpdateSession "s1" None None (Some "Mine now")))
          Sample.bob Sample.env1 Sample.db1)).
Proof.
  apply (proj1 (X12_other_users_rows_are_untouched
                  (UpdateSession (mkUpdateSession "s1" None None (Some "Mine now")))
                  Sample.bob Sample.env1 Sample.db1 eq_refl)).
  - simpl. auto.
  - intros u Hu. injection Hu as <-. simpl. discriminate.
Defined.

Lemma map_session_identity_update (p : RephraseSession -> bool) i at_ t :
  map session_identity
    (map (fun r => if p r then updateSession_set i at_ r else r) t)
  = map session_identity t.
Proof.
  rewrite map_map. apply map_ext. intros r. now destruct (p r).
Qed.

Lemma written_keeps_sessions del d d' :
  written del d d' ->
  exists added,
    map session_identity (RephraseSessions d')
    = map session_identity (RephraseSessions d) ++ added.
Proof.
  intros W. destruct W as [|r Hr|p i at_|r Hr|p i|p Hdel]; simpl;
    try (exists []; now rewrite app_nil_r).
  - exists [session_identity r]. now rewrite map_app.
  - exists []. now rewrite app_nil_r, map_session_identity_update.
Qed.

(** X13.  Sessions are never removed and never change hands.  Over any
    sequence of calls, by whomever, the (id, userId, createdAt) of the
    sessions stored at the start are a prefix of those stored at the end: a
    session keeps its id, its owner and its creation instant for good, and
    the table only grows at its end. *)
Theorem X13_sessions_stay_and_keep_their_owner :
  forall cs db,
    exists added,
      map session_identity (RephraseSessions (exec_all cs db))
      = map session_identity (RephraseSessions db) ++ added.
Proof.
  induction cs as [|[[c context] env] cs IH]; intros db; simpl.
  - exists []. now rewrite app_nil_r.
  - destruct (IH (exec c context env db)) as [added2 E2].
    destruct (written_keeps_sessions _ _ _ (exec_written c context env db))
      as [added1 E1].
    exists (added1 ++ added2). now rewrite E2, E1, app_assoc.
Qed.

Lemma references_step c context env db :
  references_ok db -> references_ok (exec c context env db).
Proof.
  intros H.
  destruct (run_cases c context env db) as [[o E]|(u & d & Hu & E & Hc)];
    rewrite (exec_of_run _ _ _ _ _ _ E); [assumption|].
  destruct c as [i|i| |i|i|i|i]; simpl in Hc; try contradiction.
  - destruct Hc as (_ & _ & ->). intros v Hv. simpl in *.
    destruct (H v Hv) as (s & Hs & Hid). exists s. split; [|assumption].
    apply in_or_app. now left.
  - destruct Hc as (_ & ->). intros v Hv. simpl in *.
    destruct (H v Hv) as (s & Hs & Hid).
    exists (if s_id s =? us_id i then updateSession_set i (now env) s else s).
    split.
    + apply in_map_iff. now exists s.
    + now destruct (s_id s =? us_id i).
  - destruct Hc as ((S & HS & Hid & _) & _ & _ & ->). intros v Hv. simpl in *.
    apply in_app_or in Hv. destruct Hv as [Hv|[<-|[]]]; [now apply H|].
    now exists S.
  - destruct Hc as (_ & _ & ->). intros v Hv. simpl in *.
    apply in_map_iff in Hv. destruct Hv as (w & <- & Hw).
    destruct (H w Hw) as (s & Hs & Hid). exists s. split; [assumption|].
    now destruct (v_id w =? uv_id i).
  - destruct Hc as (_ & _ & ->). intros v Hv. simpl in *.
    apply filter_In in Hv. now apply H.
Qed.

(** X14.  Referential integrity holds in every database the actions can
    reach from the empty one: each stored variant's sessionId is the id of a
    stored session (a variant is only inserted after that session was
    found, and sessions are never removed or renamed). *)
Theorem X14_variants_refer_to_stored_sessions :
  forall db, reachable db ->
    forall v, In v (RephraseVariants db) ->
      exists s, In s (RephraseSessions db) /\ s_id s = v_sessionId v.
Proof.
  intros db Hr. change (references_ok db).
  induction Hr as [|db c context env _ IH].
  - intros v [].
  - now apply references_step.
Qed.

Lemma X14_reference_witness :
  exists s,
    In s (RephraseSessions
            (exec_all
               [ (CreateSession (mkCreateSession None None "Hello world"),
                  Sample.alice, Sample.env1);
                 (CreateVariant
                    (mkCreateVariant "id-1" None None None "Variant A" None),
                  Sample.alice, Sample.env2) ]
               empty_db))
    /\ s_id s = "id-1".
Proof.
  apply (X14_variants_refer_to_stored_sessions _
           (reachable_exec_all
              [ (CreateSession (mkCreateSession None None "Hello world"),
                 Sample.alice, Sample.env1);
                (CreateVariant
                   (mkCreateVariant "id-1" None None None "Variant A" None),
                 Sample.alice, Sample.env2) ]
              empty_db reachable_empty)
           (mkVariant "id-2" "id-1" None None None "Variant A" false 2000%Z)).
  simpl. auto.
Defined.

(** X15.  Ids identify rows in every database the actions can reach from
    the empty one: two stored sessions with the same id are the same row,
    and so are two stored variants with the same id (an insert under an id
    already stored is refused, updates keep the id). *)
Theorem X15_ids_identify_rows :
  forall db, reachable db ->
    (forall s s', In s (RephraseSessions db) -> In s' (RephraseSessions db) ->
                  s_id s' = s_id s -> s' = s)
    /\ (forall v v', In v (RephraseVariants db) -> In v' (RephraseVariants db) ->
                     v_id v' = v_id v -> v' = v).
Proof.
  intros db Hr. pose proof (reachable_keys_ok db Hr) as Hk. split.
  - intros s s'. apply key_unique. now apply keys_ok_sessions.
  - intros v v'. apply key_unique. now apply keys_ok_variants.
Qed.

Lemma X15_ids_witness :
  mkSession "id-1" "alice" None None "Hello world" 1000%Z 1000%Z
  = mkSession "id-1" "alice" None None "Hello world" 1000%Z 1000%Z.
Proof.
  apply (proj1 (X15_ids_identify_rows _
                  (reachable_step empty_db
                     (CreateSession (mkCreateSession None None "Hello world"))
                     Sample.alice Sample.env1 reachable_empty))).
  - simpl. auto.
  - simpl. auto.
  - reflexivity.
Defined.

(** X16.  The creating actions turn down an empty required text before
    anything else, for every caller and whatever the database holds, which
    is left as it was: createSession with an empty originalText fails with
    the input error listing [too_small] at "originalText"; createVariant
    with an empty content, or with an empty sessionId, fails with the input
    error listing [too_small] at that field. *)
Theorem X16_creates_refuse_empty_text :
  forall context env db,
    (forall language context',
        createSession (mkCreateSession language context' "") context env db
        = (inl (ActionInputError [too_small "originalText"]), db))
    /\ (forall sessionId tone complexity label favorite, exists issues,
          createVariant
            (mkCreateVariant sessionId tone complexity label "" favorite)
            context env db
          = (inl (ActionInputError issues), db)
          /\ In (too_small "content") issues)
    /\ (forall tone complexity label content favorite, exists issues,
          createVariant
            (mkCreateVariant "" tone complexity label content favorite)
            context env db
          = (inl (ActionInputError issues), db)
          /\ In (too_small "sessionId") issues).
Proof.
  intros context env db. split; [|split].
  - intros language context'. now apply defineAction_rejected.
  - intros sessionId tone complexity label favorite.
    exists (min_ 1 "sessionId" sessionId ++ [too_small "content"]). split.
    + apply defineAction_rejected. unfold createVariant_input. simpl.
      apply (parsed_issue _ (min_ 1 "sessionId" sessionId)).
    + apply in_or_app. right. now left.
  - intros tone complexity label content favorite.
    exists (too_small "sessionId" :: min_ 1 "content" content). split.
    + now apply defineAction_rejected.
    + now left.
Qed.

(** X17.  The texts stay non-empty as long as no call blanks them: from a
    database in which every originalText and every content is non-empty,
    any sequence of calls none of which supplies, as originalText or as
    content, the empty string or a string that starts with U+0000 (such a
    string is stored as the empty one) leads to a database with the same
    property. *)
Theorem X17_texts_stay_non_empty_unless_blanked :
  forall cs db,
    texts_ok db ->
    forallb (fun x => negb (blanks (fst (fst x)))) cs = true ->
    texts_ok (exec_all cs db).
Proof.
  induction cs as [|[[c context] env] cs IH]; intros db Hdb Hcs; simpl in *.
  - assumption.
  - apply andb_true_iff in Hcs. destruct Hcs as [Hc Hcs].
    apply negb_true_iff in Hc.
    apply IH; [|assumption]. now apply texts_kept_unless_blanked.
Qed.

Lemma X17_texts_witness :
  texts_ok
    (exec_all
       [ (CreateSession (mkCreateSession None None "Hello world"),
          Sample.alice, Sample.env1);
         (UpdateSession (mkUpdateSession "id-1" (Some "en") None None),
          Sample.alice, Sample.env2) ]
       empty_db).
Proof.
  apply (X17_texts_stay_non_empty_unless_blanked
           [ (CreateSession (mkCreateSession None None "Hello world"),
              Sample.alice, Sample.env1);
             (UpdateSession (mkUpdateSession "id-1" (Some "en") None None),
              Sample.alice, Sample.env2) ]
           empty_db).
  - split; intros x [].
  - reflexivity.
Defined.
